(** * The workflow execution engine of vapi-go, embedded in Rocq

    The development follows the Go packages [workflow] and [workflows]:
    nodes ([SayNode], [GatherNode]) behind the [Node] interface, the
    per-execution [WorkflowState], the [WorkflowStorage] interface and the
    [WorkflowEngine] operations [CreateWorkflow], [StartWorkflow],
    [ProcessConversationUpdate] and [GetCurrentNodeMessage], the delivery
    of a message to the call ([ProcessVAPIUpdate]) and the nodes as maps
    ([ToMap], [FromMap]).

    The source holds three revisions of the nodes.  [SimNodes] are the nodes
    that engine.go runs (two-argument [Execute], simulated extraction),
    [MsgNodes] the nodes whose [Execute] also receives the conversation, and
    [VarNodes] the Gather node of package [workflows].

    Conventions of the embedding.
    - Go strings are [string]; Go maps are [gmap]s.  A map that the code
      tests against [nil] is an [option (gmap _ _)], [None] being [nil].
    - A pointer receiver that a method mutates is returned by the embedded
      method next to its result.
    - [time.Now()] reads a clock that is threaded through every operation.
    - [error] values are the inductive [Error]; [fmt.Errorf] with [%w] is
      [Wrapf].
    - [Workflow.Nodes] is only read, and a [nil] map reads as the empty
      one, so it is a plain [gmap].  [GatherSchema] is a pointer that the
      code dereferences without a test; every Gather node of the embedding
      has a schema.
    - Logging calls ([slog]) have no effect on the values studied here and
      are left out. *)

From stdpp Require Import base option strings gmap list pretty.
From Stdlib Require Import ZArith.

Local Open Scope string_scope.
Local Open Scope list_scope.

(** ** Values, time and errors *)

(** What the code stores behind Go's [any] in [Variables] and
    [ExtractedData]: strings, the integer 42 and booleans. *)
Inductive any : Type :=
  | VString (s : string)
  | VInt (z : Z)
  | VBool (b : bool).

#[global] Instance any_eq_dec : EqDecision any.
Proof. solve_decision. Defined.

(** [time.Time]; the zero time is [0]. *)
Definition Time : Type := Z.

Definition IsZero (t : Time) : bool := bool_decide (t = 0%Z).

(** The readings that successive calls of [time.Now()] will return. *)
Definition Clock : Type := nat → Time.

Definition time_Now (c : Clock) : Time * Clock := (c 0, λ k, c (S k)).

Inductive Error : Type :=
  | Errorf (msg : string)
  | Wrapf (msg : string) (cause : Error)
  | ErrNodeNotFound (NodeID : string).

#[global] Instance Error_eq_dec : EqDecision Error.
Proof. solve_decision. Defined.

Inductive Result (A : Type) : Type :=
  | Ok (a : A)
  | Err (e : Error).
Arguments Ok {A} a.
Arguments Err {A} e.

Definition is_Err {A} (r : Result A) : bool :=
  match r with Ok _ => false | Err _ => true end.

(** [json.Marshal] on a value of [Variables], as a string (package
    encoding/json). *)
Class JSON : Type := json_Marshal : any → string.

(** The line feed used by the format strings of the source. *)
Definition LF : string := String (Ascii.ascii_of_nat 10) EmptyString.

(** ** JSON schema definitions (package [minds]) *)

Module Minds.

Definition DataType : Type := string.
Definition Object : DataType := "object".
Definition Number : DataType := "number".
Definition Integer : DataType := "integer".
Definition String : DataType := "string".
Definition Array : DataType := "array".
Definition Null : DataType := "null".
Definition Boolean : DataType := "boolean".

(** Modelled from the spec: the declaration of [minds.Definition] lives in
    an external package that is not under src/.  The fields are those of
    the [Definition] struct of src/schema.go (which the package was
    derived from) that the nodes read, together with [Nullable], which
    [getMissingProperties] reads and the spec calls "marked nullable".
    [Properties] is [None] for a [nil] map. *)
#[warnings="-register-all"]
Inductive Definition' : Type :=
  mkDefinition {
    Type' : DataType;
    Description : string;
    Enum : list string;
    Properties : option (gmap string Definition');
    Required : list string;
    Nullable : bool
  }.

End Minds.

(** ** Execution state, nodes and workflows (workflow.go, node.go) *)

Record WorkflowState : Type := mkState {
  WorkflowID : string;
  UserID : string;
  CallID : string;
  CurrentNodeID : string;
  CompletedNodeIDs : list string;
  Variables : option (gmap string any);
  LastMessageAt : Time;
  LastUpdatedAt : Time;
  IsComplete : bool
}.

Definition set_CurrentNodeID (v : string) (s : WorkflowState) : WorkflowState :=
  mkState (WorkflowID s) (UserID s) (CallID s) v (CompletedNodeIDs s)
          (Variables s) (LastMessageAt s) (LastUpdatedAt s) (IsComplete s).

Definition set_CompletedNodeIDs (v : list string) (s : WorkflowState) : WorkflowState :=
  mkState (WorkflowID s) (UserID s) (CallID s) (CurrentNodeID s) v
          (Variables s) (LastMessageAt s) (LastUpdatedAt s) (IsComplete s).

Definition set_Variables (v : option (gmap string any)) (s : WorkflowState) : WorkflowState :=
  mkState (WorkflowID s) (UserID s) (CallID s) (CurrentNodeID s) (CompletedNodeIDs s)
          v (LastMessageAt s) (LastUpdatedAt s) (IsComplete s).

Definition set_LastMessageAt (v : Time) (s : WorkflowState) : WorkflowState :=
  mkState (WorkflowID s) (UserID s) (CallID s) (CurrentNodeID s) (CompletedNodeIDs s)
          (Variables s) v (LastUpdatedAt s) (IsComplete s).

Definition set_LastUpdatedAt (v : Time) (s : WorkflowState) : WorkflowState :=
  mkState (WorkflowID s) (UserID s) (CallID s) (CurrentNodeID s) (CompletedNodeIDs s)
          (Variables s) (LastMessageAt s) v (IsComplete s).

Definition set_IsComplete (v : bool) (s : WorkflowState) : WorkflowState :=
  mkState (WorkflowID s) (UserID s) (CallID s) (CurrentNodeID s) (CompletedNodeIDs s)
          (Variables s) (LastMessageAt s) (LastUpdatedAt s) v.

(** [state.Variables[k]] read as the code reads it: a [nil] map has no key. *)
Definition var_lookup (s : WorkflowState) (k : string) : option any :=
  match Variables s with
  | Some m => m !! k
  | None => None
  end.

Definition NodeType : Type := string.
Definition NodeTypeSay : NodeType := "say".
Definition NodeTypeGather : NodeType := "gather".

Record BaseNode : Type := mkBaseNode {
  NodeID : string;
  NodeKind : NodeType;
  NextNodeID : string;
  NodeCreatedAt : Time;
  NodeLastUpdatedAt : Time
}.

(** [n.NextNodeID = next], the assignment with which a workflow is wired. *)
Definition set_NextNodeID (next : string) (b : BaseNode) : BaseNode :=
  mkBaseNode (NodeID b) (NodeKind b) next (NodeCreatedAt b) (NodeLastUpdatedAt b).

(** The tail shared by every [Execute]: record the node as completed, move
    to the next node or mark the execution complete, stamp the state. *)
Definition advance (b : BaseNode) (state : WorkflowState) (c : Clock)
  : WorkflowState * Clock :=
  let state := set_CompletedNodeIDs (CompletedNodeIDs state ++ [NodeID b]) state in
  let state :=
    if decide (NextNodeID b ≠ "") then set_CurrentNodeID (NextNodeID b) state
    else set_IsComplete true state in
  let '(now, c) := time_Now c in
  (set_LastUpdatedAt now state, c).

(** The [Node] interface.  [Execute] mutates its receiver and the state it
    is given, so it returns both. *)
Class Node (N : Type) : Type := {
  ID : N → string;
  Type_ : N → NodeType;
  Execute : N → WorkflowState → Clock → Result (N * WorkflowState) * Clock
}.

Record Workflow (N : Type) : Type := mkWorkflow {
  ID_ : string;
  Name : string;
  WfDescription : string;
  Nodes : gmap string N;
  StartNodeID : string;
  CreatedAt : Time;
  UpdatedAt : Time
}.
Arguments mkWorkflow {N}.
Arguments ID_ {N}.
Arguments Name {N}.
Arguments WfDescription {N}.
Arguments Nodes {N}.
Arguments StartNodeID {N}.
Arguments CreatedAt {N}.
Arguments UpdatedAt {N}.

Definition set_Nodes {N} (v : gmap string N) (w : Workflow N) : Workflow N :=
  mkWorkflow (ID_ w) (Name w) (WfDescription w) v (StartNodeID w) (CreatedAt w) (UpdatedAt w).

(** The [WorkflowStorage] interface.  A store is a value of type [S]; the
    two reads do not change it, the two writes return the new store.
    [GetWorkflow] returns [None] where the Go method returns
    [found = false].  The store hands out copies: what the engine does to
    a workflow or a state it has loaded reaches the store only through a
    write (the store of the repository is a database). *)
Class WorkflowStorage (N S : Type) : Type := {
  SaveWorkflow : S → Workflow N → Result S;
  GetWorkflow : S → string → Result (option (Workflow N));
  SaveWorkflowState : S → WorkflowState → Result S;
  GetWorkflowState : S → string → string → string → Result WorkflowState
}.

(** ** The engine (engine.go), for any implementation of the interfaces *)

Section Engine.

Context {N S : Type} `{!Node N} `{!WorkflowStorage N S}.

(** What an engine call can read and change: the store behind
    [e.storage] and the clock. *)
Record World : Type := mkWorld {
  storage : S;
  clock : Clock
}.

Definition M (A : Type) : Type := World → Result A * World.

Definition ret {A} (a : A) : M A := λ w, (Ok a, w).

Definition fail {A} (e : Error) : M A := λ w, (Err e, w).

Definition bind {A B} (m : M A) (k : A → M B) : M B :=
  λ w, match m w with
       | (Ok a, w') => k a w'
       | (Err e, w') => (Err e, w')
       end.

(** [if err != nil { return nil, fmt.Errorf("msg: %w", err) }] *)
Definition wrapping {A} (msg : string) (m : M A) : M A :=
  λ w, match m w with
       | (Ok a, w') => (Ok a, w')
       | (Err e, w') => (Err (Wrapf msg e), w')
       end.

Definition now : M Time :=
  λ w, let '(t, c) := time_Now (clock w) in (Ok t, mkWorld (storage w) c).

Definition storage_SaveWorkflow (wf : Workflow N) : M unit :=
  λ w, match SaveWorkflow (storage w) wf with
       | Ok st => (Ok tt, mkWorld st (clock w))
       | Err e => (Err e, w)
       end.

Definition storage_GetWorkflow (workflowID : string) : M (option (Workflow N)) :=
  λ w, (GetWorkflow (storage w) workflowID, w).

Definition storage_SaveWorkflowState (state : WorkflowState) : M unit :=
  λ w, match SaveWorkflowState (storage w) state with
       | Ok st => (Ok tt, mkWorld st (clock w))
       | Err e => (Err e, w)
       end.

Definition storage_GetWorkflowState (workflowID userID callID : string) : M WorkflowState :=
  λ w, (GetWorkflowState (storage w) workflowID userID callID, w).

Definition node_Execute (n : N) (state : WorkflowState) : M (N * WorkflowState) :=
  λ w, let '(r, c) := Execute n state (clock w) in (r, mkWorld (storage w) c).

Notation "'let*' x ':=' m 'in' k" := (bind m (λ x, k))
  (at level 10, x pattern, m at level 100, k at level 200).

(** [CreateWorkflow]: the four validations, the two time stamps, then the
    store decides. *)
Definition CreateWorkflow (workflow : Workflow N) : M unit :=
  if decide (ID_ workflow = "") then
    fail (Errorf "workflow ID cannot be empty")
  else if decide (StartNodeID workflow = "") then
    fail (Errorf "workflow must have a start node")
  else if decide (size (Nodes workflow) = 0) then
    fail (Errorf "workflow must have at least one node")
  else match Nodes workflow !! StartNodeID workflow with
  | None =>
      fail (Errorf ("start node ID '" +:+ StartNodeID workflow
                    +:+ "' not found in workflow nodes"))
  | Some _ =>
      let* t := now in
      let created := if IsZero (CreatedAt workflow) then t else CreatedAt workflow in
      storage_SaveWorkflow
        (mkWorkflow (ID_ workflow) (Name workflow) (WfDescription workflow)
                    (Nodes workflow) (StartNodeID workflow) created t)
  end.

(** [StartWorkflow]: a state without a current node is placed on the start
    node and saved; any other state is returned as it was loaded. *)
Definition StartWorkflow (workflowID userID callID : string) : M WorkflowState :=
  let* found := wrapping "failed to get workflow" (storage_GetWorkflow workflowID) in
  match found with
  | None => fail (Errorf ("workflow not found: " +:+ workflowID))
  | Some workflow =>
      let* state := wrapping "failed to get workflow state"
                (storage_GetWorkflowState workflowID userID callID) in
      if decide (CurrentNodeID state = "") then
        let state := set_CurrentNodeID (StartNodeID workflow) state in
        let* _ := wrapping "failed to save initial workflow state"
              (storage_SaveWorkflowState state) in
        ret state
      else ret state
  end.

(** The second half of [ProcessConversationUpdate] (engine.go, lines
    154-181): after the current node ran and the state was saved, a
    successor of type "say" is run once and the state saved again.
    [workflow] is the workflow object in memory, with the node that just
    ran written back at [key]; [currentID] is [currentNode.ID()]. *)
Definition autoAdvance (workflow : Workflow N) (currentID : string)
    (state : WorkflowState) : M WorkflowState :=
  if negb (IsComplete state) && bool_decide (CurrentNodeID state ≠ currentID) then
    match Nodes workflow !! CurrentNodeID state with
    | None => ret state
    | Some nextNode =>
        if decide (Type_ nextNode = NodeTypeSay) then
          let* (_, state) := wrapping "node execution failed" (node_Execute nextNode state) in
          let* _ := wrapping "failed to save workflow state" (storage_SaveWorkflowState state) in
          ret state
        else ret state
    end
  else ret state.

Definition ProcessConversationUpdate (workflowID userID callID : string)
    (messages : list (gmap string any)) : M WorkflowState :=
  let* found := wrapping "failed to get workflow" (storage_GetWorkflow workflowID) in
  match found with
  | None => fail (Errorf ("workflow not found: " +:+ workflowID))
  | Some workflow =>
      let* state := wrapping "failed to get workflow state"
                (storage_GetWorkflowState workflowID userID callID) in
      if IsComplete state then ret state
      else
        let* t := now in
        let state := set_LastMessageAt t state in
        let key := CurrentNodeID state in
        match Nodes workflow !! key with
        | None => fail (ErrNodeNotFound key)
        | Some currentNode =>
            let* (currentNode, state) := wrapping "node execution failed"
                                      (node_Execute currentNode state) in
            let workflow := set_Nodes (<[key := currentNode]> (Nodes workflow)) workflow in
            let* _ := wrapping "failed to save workflow state" (storage_SaveWorkflowState state) in
            autoAdvance workflow (ID currentNode) state
        end
  end.

End Engine.

Arguments World : clear implicits.
Arguments M : clear implicits.

(** ** The engine of package [workflows] (src/unnamed/part_007)

    The earlier copy of the engine differs from engine.go in two places:
    its [GetWorkflow] has no [found] result, and its [StartWorkflow] saves
    the state whether or not it set the current node. *)

Class WorkflowStorage0 (N S : Type) : Type := {
  SaveWorkflow0 : S → Workflow N → Result S;
  GetWorkflow0 : S → string → Result (Workflow N);
  SaveWorkflowState0 : S → WorkflowState → Result S;
  GetWorkflowState0 : S → string → string → string → Result WorkflowState
}.

(** The same store behind the interface of package [workflow]: a workflow
    that is returned was found. *)
Definition found_storage {N S : Type} `{!WorkflowStorage0 N S} : WorkflowStorage N S :=
  {| SaveWorkflow := SaveWorkflow0;
     GetWorkflow := λ st workflowID,
       match GetWorkflow0 st workflowID with
       | Ok wf => Ok (Some wf)
       | Err e => Err e
       end;
     SaveWorkflowState := SaveWorkflowState0;
     GetWorkflowState := GetWorkflowState0 |}.

Section Engine0.

Context {N S : Type} `{!Node N} `{!WorkflowStorage0 N S}.

#[local] Existing Instance found_storage.

Notation "'let*' x ':=' m 'in' k" := (bind m (λ x, k))
  (at level 10, x pattern, m at level 100, k at level 200).

Definition storage_GetWorkflow0 (workflowID : string) : M S (Workflow N) :=
  λ w, (GetWorkflow0 (storage w) workflowID, w).

Definition StartWorkflow0 (workflowID userID callID : string) : M S WorkflowState :=
  let* workflow := wrapping "failed to get workflow" (storage_GetWorkflow0 workflowID) in
  let* state := wrapping "failed to get workflow state"
                  (storage_GetWorkflowState workflowID userID callID) in
  let state :=
    if decide (CurrentNodeID state = "") then
      set_CurrentNodeID (StartNodeID workflow) state
    else state in
  let* _ := wrapping "failed to save initial workflow state"
              (storage_SaveWorkflowState state) in
  ret state.

Definition ProcessConversationUpdate0 (workflowID userID callID : string)
    (messages : list (gmap string any)) : M S WorkflowState :=
  let* workflow := wrapping "failed to get workflow" (storage_GetWorkflow0 workflowID) in
  let* state := wrapping "failed to get workflow state"
                  (storage_GetWorkflowState workflowID userID callID) in
  if IsComplete state then ret state
  else
    let* t := now in
    let state := set_LastMessageAt t state in
    let key := CurrentNodeID state in
    match Nodes workflow !! key with
    | None => fail (ErrNodeNotFound key)
    | Some currentNode =>
        let* (currentNode, state) := wrapping "node execution failed"
                                       (node_Execute currentNode state) in
        let workflow := set_Nodes (<[key := currentNode]> (Nodes workflow)) workflow in
        let* _ := wrapping "failed to save workflow state"
                    (storage_SaveWorkflowState state) in
        autoAdvance workflow (ID currentNode) state
    end.

End Engine0.

(** ** Loops over Go maps *)

(** [for k, v := range src { dst[k] = v }].  Go leaves the order of the
    iteration open; the keys of a map are distinct, so the result does not
    depend on it (see [assignAll_lookup]). *)
Definition assignAll (src dst : gmap string any) : gmap string any :=
  map_fold (λ k v acc, <[k := v]> acc) dst src.

(** [for _, req := range required { if req == propName { ... break } }] *)
Fixpoint isRequired (required : list string) (propName : string) : bool :=
  match required with
  | [] => false
  | req :: rest => if decide (req = propName) then true else isRequired rest propName
  end.

(** [_, ok := m[k]] on a map that may be [nil]. *)
Definition has_key (m : option (gmap string any)) (k : string) : bool :=
  match m with
  | Some m => bool_decide (is_Some (m !! k))
  | None => false
  end.

(** [if m == nil { m = make(map[string]any) }] *)
Definition made (m : option (gmap string any)) : gmap string any :=
  default ∅ m.

(** The zero value of [minds.Definition], which indexing [Properties] with
    an absent key returns. *)
Definition zeroDefinition : Minds.Definition' :=
  Minds.mkDefinition "" "" [] None [] false.

(** ** Nodes with simulated extraction
    (src/workflow/say_node.go; src/workflow/gather_node.go, second part) *)

Module SimNodes.

Record SayNode : Type := mkSayNode {
  SayBase : BaseNode;
  Message : string;
  SayLLMPrompt : string;
  MessageType : string
}.

Record GatherNode : Type := mkGatherNode {
  GatherBase : BaseNode;
  GatherSchema : Minds.Definition';
  MaxAttempts : Z;
  LLMPrompt : string;
  FallbackNodeID : string;
  FollowUpPrompt : string;
  ExtractedData : option (gmap string any)
}.

Definition set_ExtractedData (v : option (gmap string any)) (n : GatherNode) : GatherNode :=
  mkGatherNode (GatherBase n) (GatherSchema n) (MaxAttempts n) (LLMPrompt n)
               (FallbackNodeID n) (FollowUpPrompt n) v.

(** [NewSayNode], [NewSayNodeWithLLMPrompt] and [NewGatherNode]; [t] is
    the reading of [time.Now()]. *)
Definition NewSayNode (id message : string) (t : Time) : SayNode :=
  mkSayNode (mkBaseNode id NodeTypeSay "" t t) message "" "exact".

Definition NewSayNodeWithLLMPrompt (id prompt : string) (t : Time) : SayNode :=
  mkSayNode (mkBaseNode id NodeTypeSay "" t t) "" prompt "generated".

Definition NewGatherNode (id : string) (schema : Minds.Definition') (maxAttempts : Z)
    (llmPrompt : string) (t : Time) : GatherNode :=
  mkGatherNode (mkBaseNode id NodeTypeGather "" t t) schema maxAttempts llmPrompt
               "" "" (Some ∅).

(** The node with other retry settings. *)
Definition with_retry (maxAttempts : Z) (fallbackNodeID : string) (n : GatherNode)
  : GatherNode :=
  mkGatherNode (GatherBase n) (GatherSchema n) maxAttempts (LLMPrompt n)
               fallbackNodeID (FollowUpPrompt n) (ExtractedData n).

(** [node.NextNodeID = next] *)
Definition say_to (next : string) (n : SayNode) : SayNode :=
  mkSayNode (set_NextNodeID next (SayBase n)) (Message n) (SayLLMPrompt n) (MessageType n).

Definition gather_to (next : string) (n : GatherNode) : GatherNode :=
  mkGatherNode (set_NextNodeID next (GatherBase n)) (GatherSchema n) (MaxAttempts n)
               (LLMPrompt n) (FallbackNodeID n) (FollowUpPrompt n) (ExtractedData n).

Section WithJSON.

Context `{!JSON}.

(** The message a Say node resolves: the literal one, a placeholder built
    from the prompt and the variables (visited in the order of [map_fold],
    one of the orders Go may take), or the empty string for any other
    [MessageType]. *)
Definition sayMessage (n : SayNode) (state : WorkflowState) : string :=
  if decide (MessageType n = "exact") then Message n
  else if decide (MessageType n = "generated") then
    let prompt :=
      map_fold (λ key value prompt,
                  prompt +:+ LF +:+ key +:+ ": " +:+ json_Marshal value)
               (SayLLMPrompt n) (made (Variables state)) in
    "Generated message based on: " +:+ prompt
  else "".

(** [SayNode.Execute], src/workflow/say_node.go lines 61-109. *)
Definition SayNode_Execute (n : SayNode) (state : WorkflowState) (c : Clock)
  : Result (SayNode * WorkflowState) * Clock :=
  let message := sayMessage n state in
  let vars := made (Variables state) in
  let state := set_Variables (Some (<["lastSayMessage" := VString message]> vars)) state in
  let '(state, c) := advance (SayBase n) state c in
  (Ok (n, state), c).

End WithJSON.

(** The required properties of the schema that [ExtractedData] lacks.  Go
    leaves the order in which [range] visits [Properties] open; the list
    follows [map_to_list], and what is done with it does not depend on the
    order. *)
Definition missingRequired (n : GatherNode) (data : gmap string any) : list string :=
  match Minds.Properties (GatherSchema n) with
  | Some props =>
      if decide (Minds.Type' (GatherSchema n) = Minds.Object) then
        omap (λ '(propName, _),
                if isRequired (Minds.Required (GatherSchema n)) propName
                   && negb (bool_decide (is_Some (data !! propName)))
                then Some propName else None)
             (map_to_list props)
      else []
  | None => []
  end.

(** The dummy value that stands for the extraction of one property. *)
Definition sampleValue (propName : string) (propDef : Minds.Definition') : any :=
  if decide (Minds.Type' propDef = Minds.String) then VString ("Sample " +:+ propName)
  else if decide (Minds.Type' propDef = Minds.Number
                  ∨ Minds.Type' propDef = Minds.Integer) then VInt 42
  else if decide (Minds.Type' propDef = Minds.Boolean) then VBool true
  else match Minds.Enum propDef with
       | first :: _ => VString first
       | [] => VString "unknown"
       end.

Definition extractMissing (n : GatherNode) (missing : list string)
    (data : gmap string any) : gmap string any :=
  foldl (λ data propName,
           let propDef := default zeroDefinition
                            (default ∅ (Minds.Properties (GatherSchema n)) !! propName) in
           <[propName := sampleValue propName propDef]> data)
        data missing.

(** [GatherNode.Execute], src/workflow/gather_node.go lines 273-374. *)
Definition GatherNode_Execute (n : GatherNode) (state : WorkflowState) (c : Clock)
  : Result (GatherNode * WorkflowState) * Clock :=
  let data := made (ExtractedData n) in
  let missing := missingRequired n data in
  let '(data, state) :=
    if decide (0 < length missing) then
      let data := extractMissing n missing data in
      (data, set_Variables (Some (assignAll data (made (Variables state)))) state)
    else (data, state) in
  let '(state, c) := advance (GatherBase n) state c in
  (Ok (set_ExtractedData (Some data) n, state), c).

(** The values behind the [Node] interface in this package. *)
Inductive node : Type :=
  | Say (n : SayNode)
  | Gather (n : GatherNode).

Definition base (n : node) : BaseNode :=
  match n with
  | Say n => SayBase n
  | Gather n => GatherBase n
  end.

Definition node_Execute `{!JSON} (n : node)
    (state : WorkflowState) (c : Clock) : Result (node * WorkflowState) * Clock :=
  match n with
  | Say n =>
      match SayNode_Execute n state c with
      | (Ok (n, state), c) => (Ok (Say n, state), c)
      | (Err e, c) => (Err e, c)
      end
  | Gather n =>
      match GatherNode_Execute n state c with
      | (Ok (n, state), c) => (Ok (Gather n, state), c)
      | (Err e, c) => (Err e, c)
      end
  end.

#[global] Instance Node_node `{!JSON} : Node node :=
  {| ID := λ n, NodeID (base n);
     Type_ := λ n, NodeKind (base n);
     Execute := node_Execute |}.

End SimNodes.

(** ** Nodes whose [Execute] receives the conversation
    (src/unnamed/part_005; src/workflow/gather_node.go, first part) *)

(** [vapi.Message] (call_types.go).  Its timing fields are floating-point
    numbers that no node reads; they are left out. *)
Record vapi_Message : Type := mkMessage {
  Role : string;
  MessageText : string
}.

Module MsgNodes.

Definition MessageType : Type := string.
Definition MessageTypeExact : MessageType := "exact".
Definition MessageTypeGenerated : MessageType := "generated".

Record SayNode : Type := mkSayNode {
  SayBase : BaseNode;
  Message : string;
  SayLLMPrompt : string;
  SayMessageType : MessageType
}.

Record GatherNode : Type := mkGatherNode {
  GatherBase : BaseNode;
  GatherSchema : Minds.Definition';
  MaxAttempts : Z;
  LLMPrompt : string;
  FallbackNodeID : string;
  FollowUpPrompt : string;
  ExtractedData : option (gmap string any)
}.

Definition set_ExtractedData (v : option (gmap string any)) (n : GatherNode) : GatherNode :=
  mkGatherNode (GatherBase n) (GatherSchema n) (MaxAttempts n) (LLMPrompt n)
               (FallbackNodeID n) (FollowUpPrompt n) v.

Definition NewSayNode (id message : string) (t : Time) : SayNode :=
  mkSayNode (mkBaseNode id NodeTypeSay "" t t) message "" MessageTypeExact.

Definition NewGeneratedSayNode (id prompt : string) (t : Time) : SayNode :=
  mkSayNode (mkBaseNode id NodeTypeSay "" t t) "" prompt MessageTypeGenerated.

Definition NewGatherNode (id : string) (schema : Minds.Definition') (maxAttempts : Z)
    (llmPrompt : string) (t : Time) : GatherNode :=
  mkGatherNode (mkBaseNode id NodeTypeGather "" t t) schema maxAttempts llmPrompt
               "" "" (Some ∅).

Definition with_retry (maxAttempts : Z) (fallbackNodeID : string) (n : GatherNode)
  : GatherNode :=
  mkGatherNode (GatherBase n) (GatherSchema n) maxAttempts (LLMPrompt n)
               fallbackNodeID (FollowUpPrompt n) (ExtractedData n).

(** The message of a Say node, or the error for a [MessageType] that is
    neither of the two constants. *)
Definition sayMessage (n : SayNode) : Result string :=
  if decide (SayMessageType n = MessageTypeExact) then Ok (Message n)
  else if decide (SayMessageType n = MessageTypeGenerated) then
    Ok ("Generated message from prompt: " +:+ SayLLMPrompt n)
  else Err (Errorf ("invalid message type: " +:+ SayMessageType n)).

(** [SayNode.Execute], src/unnamed/part_005 lines 71-103.  The message is
    only logged. *)
Definition SayNode_Execute (n : SayNode) (state : WorkflowState)
    (messages : list vapi_Message) (c : Clock)
  : Result (SayNode * WorkflowState) * Clock :=
  match sayMessage n with
  | Err e => (Err e, c)
  | Ok message =>
      let '(state, c) := advance (SayBase n) state c in
      (Ok (n, state), c)
  end.

(** [getMissingProperties], src/workflow/gather_node.go lines 110-137.  The
    list follows [map_to_list]; Go leaves the order of [range] open. *)
Definition getMissingProperties (n : GatherNode) : list string :=
  match Minds.Properties (GatherSchema n) with
  | Some props =>
      if decide (Minds.Type' (GatherSchema n) = Minds.Object) then
        omap (λ '(propName, propDef),
                if negb (isRequired (Minds.Required (GatherSchema n)) propName)
                   || Minds.Nullable propDef
                then None
                else if has_key (ExtractedData n) propName then None
                else Some propName)
             (map_to_list props)
      else []
  | None => []
  end.

(** [GatherNode.Execute], src/workflow/gather_node.go lines 63-108. *)
Definition GatherNode_Execute (n : GatherNode) (state : WorkflowState)
    (messages : list vapi_Message) (c : Clock)
  : Result (GatherNode * WorkflowState) * Clock :=
  let n := set_ExtractedData (Some (made (ExtractedData n))) n in
  let missing := getMissingProperties n in
  let state :=
    if decide (0 < length missing) then
      set_Variables (Some (assignAll (made (ExtractedData n)) (made (Variables state)))) state
    else state in
  let '(state, c) := advance (GatherBase n) state c in
  (Ok (n, state), c).

Inductive node : Type :=
  | Say (n : SayNode)
  | Gather (n : GatherNode).

Definition base (n : node) : BaseNode :=
  match n with
  | Say n => SayBase n
  | Gather n => GatherBase n
  end.

Definition node_Execute (n : node) (state : WorkflowState)
    (messages : list vapi_Message) (c : Clock) : Result (node * WorkflowState) * Clock :=
  match n with
  | Say n =>
      match SayNode_Execute n state messages c with
      | (Ok (n, state), c) => (Ok (Say n, state), c)
      | (Err e, c) => (Err e, c)
      end
  | Gather n =>
      match GatherNode_Execute n state messages c with
      | (Ok (n, state), c) => (Ok (Gather n, state), c)
      | (Err e, c) => (Err e, c)
      end
  end.

(** The [Node] interface of node.go has the three-argument [Execute]; the
    engine under src/ calls the two-argument one.  The instance fixes the
    conversation that a caller hands to [Execute]. *)
Definition Node_node (messages : list vapi_Message) : Node node :=
  {| ID := λ n, NodeID (base n);
     Type_ := λ n, NodeKind (base n);
     Execute := λ n state c, node_Execute n state messages c |}.

End MsgNodes.

(** ** Nodes of package [workflows] (src/workflows/gather_node.go) *)

Module VarNodes.

Definition DataType : Type := string.
Definition DataTypeString : DataType := "string".
Definition DataTypeNumber : DataType := "number".
Definition DataTypeBoolean : DataType := "boolean".
Definition DataTypeEnum : DataType := "enum".

Record GatherVariable : Type := mkGatherVariable {
  VarName : string;
  VarDescription : string;
  VarDataType : DataType;
  VarRequired : bool;
  EnumValues : list string
}.

Record GatherNode : Type := mkGatherNode {
  GatherBase : BaseNode;
  GatherVariables : list GatherVariable;
  MaxAttempts : Z;
  LLMPrompt : string;
  FallbackNodeID : string;
  FollowUpPrompt : string;
  ExtractedData : option (gmap string any)
}.

Definition set_ExtractedData (v : option (gmap string any)) (n : GatherNode) : GatherNode :=
  mkGatherNode (GatherBase n) (GatherVariables n) (MaxAttempts n) (LLMPrompt n)
               (FallbackNodeID n) (FollowUpPrompt n) v.

(** [NewGatherNode] of package [workflows] leaves [ExtractedData] [nil]. *)
Definition NewGatherNode (id : string) (variables : list GatherVariable)
    (maxAttempts : Z) (llmPrompt : string) (t : Time) : GatherNode :=
  mkGatherNode (mkBaseNode id NodeTypeGather "" t t) variables maxAttempts llmPrompt
               "" "" None.

Definition with_retry (maxAttempts : Z) (fallbackNodeID : string) (n : GatherNode)
  : GatherNode :=
  mkGatherNode (GatherBase n) (GatherVariables n) maxAttempts (LLMPrompt n)
               fallbackNodeID (FollowUpPrompt n) (ExtractedData n).

(** The [switch variable.DataType] of the simulated extraction; a data type
    outside the four constants stores nothing. *)
Definition sampleVariable (variable : GatherVariable) (data : gmap string any)
  : gmap string any :=
  if decide (VarDataType variable = DataTypeString) then
    <[VarName variable := VString ("Sample " +:+ VarName variable)]> data
  else if decide (VarDataType variable = DataTypeNumber) then
    <[VarName variable := VInt 42]> data
  else if decide (VarDataType variable = DataTypeBoolean) then
    <[VarName variable := VBool true]> data
  else if decide (VarDataType variable = DataTypeEnum) then
    match EnumValues variable with
    | first :: _ => <[VarName variable := VString first]> data
    | [] => <[VarName variable := VString "unknown"]> data
    end
  else data.

(** [GatherNode.Execute], src/workflows/gather_node.go lines 62-148. *)
Definition GatherNode_Execute (n : GatherNode) (state : WorkflowState) (c : Clock)
  : Result (GatherNode * WorkflowState) * Clock :=
  let data := made (ExtractedData n) in
  let missing :=
    filter (λ variable, ¬ is_Some (data !! VarName variable)) (GatherVariables n) in
  let '(data, state) :=
    if decide (0 < length missing) then
      let data := foldl (λ data variable, sampleVariable variable data) data missing in
      (data, set_Variables (Some (assignAll data (made (Variables state)))) state)
    else (data, state) in
  let '(state, c) := advance (GatherBase n) state c in
  (Ok (set_ExtractedData (Some data) n, state), c).

End VarNodes.

(** ** A store in memory *)

(** Modelled from the spec: the implementation of [WorkflowStorage]
    (storage.go, a Firestore store) is not under src/.  The spec asks that a
    workflow or state that was saved is read back equal to the original,
    that the state of an execution is keyed by its [(workflowId, userId,
    callId)] triple, and that reading the state of a triple that has none
    returns a fresh state and no error; the fresh state carries the triple
    that was asked for and the zero value in every other field. *)
Record MemStore (N : Type) : Type := mkMemStore {
  workflows : gmap string (Workflow N);
  states : gmap (string * string * string) WorkflowState
}.
Arguments mkMemStore {N}.
Arguments workflows {N}.
Arguments states {N}.

Definition freshState (workflowID userID callID : string) : WorkflowState :=
  mkState workflowID userID callID "" [] None 0%Z 0%Z false.

#[global] Instance MemStorage (N : Type) : WorkflowStorage N (MemStore N) :=
  {| SaveWorkflow := λ st wf,
       Ok (mkMemStore (<[ID_ wf := wf]> (workflows st)) (states st));
     GetWorkflow := λ st workflowID, Ok (workflows st !! workflowID);
     SaveWorkflowState := λ st s,
       Ok (mkMemStore (workflows st)
                      (<[(WorkflowID s, UserID s, CallID s) := s]> (states st)));
     GetWorkflowState := λ st workflowID userID callID,
       Ok (default (freshState workflowID userID callID)
                   (states st !! (workflowID, userID, callID))) |}.

(** ** What the proofs ask of a store *)

(** A store on which the states can be written. *)
Class StateWrites (N S : Type) `{!WorkflowStorage N S} : Prop :=
  save_state_ok : ∀ (st : S) (s : WorkflowState), ∃ st', SaveWorkflowState st s = Ok st'.

(** A store that keeps workflows: the write succeeds, the workflow is
    served back under its id, and the states are left alone. *)
Class WorkflowWrites (N S : Type) `{!WorkflowStorage N S} : Prop := {
  save_workflow_ok : ∀ (st : S) (wf : Workflow N),
    ∃ st', SaveWorkflow st wf = Ok st';
  get_saved_workflow : ∀ (st st' : S) (wf : Workflow N),
    SaveWorkflow st wf = Ok st' → GetWorkflow st' (ID_ wf) = Ok (Some wf);
  save_workflow_keeps_states : ∀ (st st' : S) (wf : Workflow N) workflowID userID callID,
    SaveWorkflow st wf = Ok st' →
    GetWorkflowState st' workflowID userID callID
    = GetWorkflowState st workflowID userID callID
}.

(** [MemStorage] works. *)
#[global] Instance MemStorage_state_writes (N : Type) : StateWrites N (MemStore N).
Proof. intros st s. eexists. reflexivity. Qed.

#[global] Instance MemStorage_workflow_writes (N : Type) : WorkflowWrites N (MemStore N).
Proof.
  split.
  - intros st wf. eexists. reflexivity.
  - intros st st' wf Hsave. simpl in *. injection Hsave as <-. simpl.
    by rewrite lookup_insert_eq.
  - intros st st' wf workflowID userID callID Hsave. simpl in *.
    by injection Hsave as <-.
Qed.

(** ** Fixtures: the schema of gather_node_test.go and small workflows *)

Module Fixtures.

Local Open Scope Z_scope.

Definition clk : Clock := λ k, 1000 + Z.of_nat k.

Definition marshal : JSON := λ _, "null".

(** The schema of [TestGatherNode_Execute]: [name] and [email] required,
    [age] optional. *)
Definition userProfile : Minds.Definition' :=
  Minds.mkDefinition Minds.Object "User Profile" []
    (Some (<["name" := Minds.mkDefinition Minds.String "User's full name" [] None [] false]>
          (<["age" := Minds.mkDefinition Minds.Integer "User's age in years" [] None [] false]>
          (<["email" := Minds.mkDefinition Minds.String "User's email address" [] None [] false]>
           ∅))))
    ["name"; "email"] false.

(** The state of the test, with the times fixed. *)
Definition testState : WorkflowState :=
  mkState "test-workflow" "test-user" "test-call" "profile_collector" []
          (Some ∅) 7 7 false.

(** A schema whose only property is required and nullable. *)
Definition nullableProfile : Minds.Definition' :=
  Minds.mkDefinition Minds.Object "Profile" []
    (Some (<["nickname" := Minds.mkDefinition Minds.String "Nickname" [] None [] true]> ∅))
    ["nickname"] false.

Definition extractPrompt : string :=
  "Extract the user profile information from the conversation.".

(** The node of the test in the two revisions of package [workflow]. *)
Definition collector : SimNodes.GatherNode :=
  SimNodes.NewGatherNode "profile_collector" userProfile 3 extractPrompt 5.

Definition msgCollector : MsgNodes.GatherNode :=
  MsgNodes.NewGatherNode "profile_collector" userProfile 3 extractPrompt 5.

(** Workflow [A (Gather) -> B (Say)], with [B] terminal. *)
Definition nodeA : SimNodes.GatherNode :=
  SimNodes.gather_to "B" (SimNodes.NewGatherNode "A" userProfile 3 extractPrompt 5).

Definition nodeB : SimNodes.SayNode := SimNodes.NewSayNode "B" "Thank you." 5.

Definition chainWf : Workflow SimNodes.node :=
  mkWorkflow "intake" "Intake" "Collects a profile"
             (<["A" := SimNodes.Gather nodeA]> (<["B" := SimNodes.Say nodeB]> ∅))
             "A" 0 0.

Definition key1 : string * string * string := ("intake", "user-1", "call-1")%string.

Definition atNode (nodeID : string) : WorkflowState :=
  mkState "intake" "user-1" "call-1" nodeID [] None 0 0 false.

Definition storeAt (wf : Workflow SimNodes.node) (s : WorkflowState)
  : MemStore SimNodes.node :=
  mkMemStore (<["intake" := wf]> ∅) (<[key1 := s]> ∅).

Definition chainStore : MemStore SimNodes.node := storeAt chainWf (atNode "A").

(** The store before the first [StartWorkflow] of [key1]. *)
Definition freshStore : MemStore SimNodes.node :=
  mkMemStore (<["intake" := chainWf]> ∅) ∅.

Definition doneState : WorkflowState :=
  mkState "intake" "user-1" "call-1" "B" ["A"; "B"]%string None 1000 1002 true.

Definition doneStore : MemStore SimNodes.node := storeAt chainWf doneState.

Definition lostStore : MemStore SimNodes.node := storeAt chainWf (atNode "ghost").

(** A Say node that names itself as its successor. *)
Definition nodeL : SimNodes.SayNode :=
  SimNodes.say_to "L" (SimNodes.NewSayNode "L" "Again." 5).

Definition loopWf : Workflow SimNodes.node :=
  mkWorkflow "intake" "Loop" "" (<["L" := SimNodes.Say nodeL]> ∅) "L" 0 0.

Definition loopStore : MemStore SimNodes.node := storeAt loopWf (atNode "L").

Definition emptyStore : MemStore SimNodes.node := mkMemStore ∅ ∅.

(** A workflow whose only node is stored under the empty string. *)
Definition emptyKeyWf : Workflow SimNodes.node :=
  mkWorkflow "odd" "Odd" "" (<["" := SimNodes.Say (SimNodes.NewSayNode "" "Hi." 5)]> ∅)
             "" 0 0.

(** A store that already holds progress for [key1], at node [B]. *)
Definition resumedStore : MemStore SimNodes.node :=
  mkMemStore ∅ (<[key1 := atNode "B"]> ∅).

(** Say nodes whose [MessageType] is neither "exact" nor "generated". *)
Definition bogusSay : SimNodes.SayNode :=
  SimNodes.mkSayNode (mkBaseNode "S" NodeTypeSay "" 5 5) "Hello." "" "bogus".

Definition bogusMsgSay : MsgNodes.SayNode :=
  MsgNodes.mkSayNode (mkBaseNode "S" NodeTypeSay "" 5 5) "Hello." "" "bogus".



(** [nodeA] with three attempts and a fallback node. *)
Definition nodeAFallback : SimNodes.GatherNode := SimNodes.with_retry 3 "F" nodeA.

Definition fallbackWf : Workflow SimNodes.node :=
  mkWorkflow "intake" "Intake" "Collects a profile"
             (<["A" := SimNodes.Gather nodeAFallback]>
              (<["B" := SimNodes.Say nodeB]>
               (<["F" := SimNodes.Say (SimNodes.NewSayNode "F" "Sorry." 5)]> ∅)))
             "A" 0 0.

Definition fallbackStore : MemStore SimNodes.node := storeAt fallbackWf (atNode "A").

End Fixtures.

(** ** The nodes of package [workflows] and the message of the current node *)

(** src/workflows/say_node.go has the [SayNode] of src/workflow/say_node.go
    word for word, so [SimNodes.SayNode] stands for both; the Gather node of
    the package is [VarNodes.GatherNode].  [GetCurrentNodeMessage] of
    engine.go reads the [Variables] of a Gather node, so these are the
    nodes it is written for. *)
Module WfNodes.

Inductive node : Type :=
  | Say (n : SimNodes.SayNode)
  | Gather (n : VarNodes.GatherNode).

Definition base (n : node) : BaseNode :=
  match n with
  | Say n => SimNodes.SayBase n
  | Gather n => VarNodes.GatherBase n
  end.

Definition node_Execute `{!JSON} (n : node)
    (state : WorkflowState) (c : Clock) : Result (node * WorkflowState) * Clock :=
  match n with
  | Say n =>
      match SimNodes.SayNode_Execute n state c with
      | (Ok (n, state), c) => (Ok (Say n, state), c)
      | (Err e, c) => (Err e, c)
      end
  | Gather n =>
      match VarNodes.GatherNode_Execute n state c with
      | (Ok (n, state), c) => (Ok (Gather n, state), c)
      | (Err e, c) => (Err e, c)
      end
  end.

#[global] Instance Node_node `{!JSON} : Node node :=
  {| ID := λ n, NodeID (base n);
     Type_ := λ n, NodeKind (base n);
     Execute := node_Execute |}.

(** The variables of a Gather node that [state.Variables] lacks. *)
Definition missingVariables (n : VarNodes.GatherNode) (state : WorkflowState)
  : list VarNodes.GatherVariable :=
  filter (λ variable, ¬ is_Some (var_lookup state (VarNodes.VarName variable)))
         (VarNodes.GatherVariables n).

(** [prompt += fmt.Sprintf("- %s: %s\n", v.Name, v.Description)] over the
    missing variables. *)
Definition gatherPrompt (missing : list VarNodes.GatherVariable) : string :=
  foldl (λ prompt v,
           prompt +:+ "- " +:+ VarNodes.VarName v +:+ ": "
                  +:+ VarNodes.VarDescription v +:+ LF)
        ("I need to gather some information from you:" +:+ LF) missing.

(** The type switch of [GetCurrentNodeMessage], engine.go lines 222-254. *)
Definition nodeMessage (n : node) (state : WorkflowState) : string :=
  match n with
  | Say n =>
      if decide (SimNodes.MessageType n = "exact") then SimNodes.Message n
      else if decide (SimNodes.MessageType n = "generated") then
        "Generated message based on: " +:+ SimNodes.SayLLMPrompt n
      else "Please continue with our conversation."
  | Gather n =>
      let missing := missingVariables n state in
      if decide (0 < length missing) then gatherPrompt missing
      else "Thank you for providing that information."
  end.

Section Message.

Context {S : Type} `{!WorkflowStorage node S}.

Notation "'let*' x ':=' m 'in' k" := (bind m (λ x, k))
  (at level 10, x pattern, m at level 100, k at level 200).

(** [GetCurrentNodeMessage], engine.go lines 187-255. *)
Definition GetCurrentNodeMessage (workflowID userID callID : string) : M S string :=
  let* found := wrapping "failed to get workflow" (storage_GetWorkflow workflowID) in
  match found with
  | None => fail (Errorf ("workflow not found: " +:+ workflowID))
  | Some workflow =>
      let* state := wrapping "failed to get workflow state"
                      (storage_GetWorkflowState workflowID userID callID) in
      if IsComplete state then ret "Workflow complete"
      else
        match Nodes workflow !! CurrentNodeID state with
        | None => fail (ErrNodeNotFound (CurrentNodeID state))
        | Some currentNode => ret (nodeMessage currentNode state)
        end
  end.

End Message.

End WfNodes.

(** ** Delivery to the call (src/unnamed/part_006) *)

(** What the HTTP client does with one POST: the request cannot be built,
    the client fails, the body of the answer cannot be read, or an answer
    arrives. *)
Inductive PostOutcome : Type :=
  | RequestError (e : Error)
  | ClientError (e : Error)
  | BodyError (e : Error)
  | Response (StatusCode : nat) (body : string).

(** The outside of [sendVAPIMessage]: [json.Marshal] on the control message
    that carries [content], and the answer of the network to a POST of a
    body to a URL. *)
Class ControlChannel : Type := {
  marshalAddMessage : string → Result string;
  http_POST : string → string → PostOutcome
}.

Definition StatusOK : nat := 200.

Section VAPI.

Context `{!ControlChannel}.

(** [sendVAPIMessage], part_006 lines 85-129.  [sent] lists the requests
    that were handed to the HTTP client, as (URL, body) pairs. *)
Definition sendVAPIMessage (controlURL message : string) (sent : list (string * string))
  : option Error * list (string * string) :=
  match marshalAddMessage message with
  | Err e => (Some (Wrapf "failed to marshal control message" e), sent)
  | Ok jsonData =>
      match http_POST controlURL jsonData with
      | RequestError e => (Some (Wrapf "failed to create request" e), sent)
      | ClientError e =>
          (Some (Wrapf "failed to send request" e), sent ++ [(controlURL, jsonData)])
      | BodyError e =>
          (Some (Wrapf "failed to read response body" e), sent ++ [(controlURL, jsonData)])
      | Response status body =>
          if decide (status ≠ StatusOK) then
            (Some (Errorf ("unexpected status code: " +:+ pretty status
                           +:+ ", body: " +:+ body)),
             sent ++ [(controlURL, jsonData)])
          else (None, sent ++ [(controlURL, jsonData)])
      end
  end.

Context {S : Type}.

(** The engine that [ProcessVAPIUpdate] calls takes the conversation as
    [[]vapi.Message]; that revision of the engine is not under src/, so its
    two methods are taken as they are given. *)
Context (engine_ProcessConversationUpdate :
           string → string → string → list vapi_Message → M S WorkflowState).
Context (engine_GetCurrentNodeMessage : string → string → string → M S string).

(** [messages[len(messages)-1].Role == "user"], guarded by
    [len(messages) > 0]. *)
Definition lastFromUser (messages : list vapi_Message) : bool :=
  match last messages with
  | Some m => bool_decide (Role m = "user")
  | None => false
  end.

(** [ProcessVAPIUpdate], part_006 lines 23-78. *)
Definition ProcessVAPIUpdate (workflowID userID callID : string)
    (messages : list vapi_Message) (controlURL : string)
    (w : World S) (sent : list (string * string))
  : option Error * World S * list (string * string) :=
  match engine_ProcessConversationUpdate workflowID userID callID messages w with
  | (Err e, w) => (Some (Wrapf "failed to process conversation update" e), w, sent)
  | (Ok _, w) =>
      if lastFromUser messages then
        match engine_GetCurrentNodeMessage workflowID userID callID w with
        | (Err e, w) => (Some e, w, sent)
        | (Ok message, w) =>
            if decide (message ≠ "") then
              let '(err, sent) := sendVAPIMessage controlURL message sent in
              (err, w, sent)
            else (None, w, sent)
        end
      else (None, w, sent)
  end.

End VAPI.

(** ** Nodes as maps ([ToMap] and [FromMap]) *)

(** The dynamic values that [ToMap] puts in a [map[string]any]: strings,
    [int], [bool], [time.Time], [[]string], a [map[string]any] of extracted
    data (possibly [nil]) and the [[]map[string]any] of the variables. *)
#[warnings="-register-all"]
Inductive dyn : Type :=
  | DString (s : string)
  | DInt (z : Z)
  | DBool (b : bool)
  | DTime (t : Time)
  | DStrings (l : list string)
  | DData (m : option (gmap string any))
  | DMaps (l : list (gmap string dyn)).

(** The type assertions [v.(string)], [v.(int)], ... on a map entry: an
    absent key and a value of another dynamic type both give [ok = false]. *)
Definition as_string (v : option dyn) : option string :=
  match v with Some (DString s) => Some s | _ => None end.

Definition as_int (v : option dyn) : option Z :=
  match v with Some (DInt z) => Some z | _ => None end.

Definition as_bool (v : option dyn) : option bool :=
  match v with Some (DBool b) => Some b | _ => None end.

Definition as_time (v : option dyn) : option Time :=
  match v with Some (DTime t) => Some t | _ => None end.

Definition as_strings (v : option dyn) : option (list string) :=
  match v with Some (DStrings l) => Some l | _ => None end.

Definition as_data (v : option dyn) : option (option (gmap string any)) :=
  match v with Some (DData m) => Some m | _ => None end.

Definition as_maps (v : option dyn) : option (list (gmap string dyn)) :=
  match v with Some (DMaps l) => Some l | _ => None end.

(** [if x, ok := ...; ok { field = x }] *)
Definition assigned {A B} (v : option A) (set : A → B → B) (n : B) : B :=
  match v with
  | Some x => set x n
  | None => n
  end.

(** The fields of [BaseNode] that both [FromMap]s read. *)
Definition BaseNode_FromMap (data : gmap string dyn) (b : BaseNode) : BaseNode :=
  let b := assigned (as_string (data !! "id"))
             (λ v b, mkBaseNode v (NodeKind b) (NextNodeID b)
                                (NodeCreatedAt b) (NodeLastUpdatedAt b)) b in
  let b := assigned (as_string (data !! "type"))
             (λ v b, mkBaseNode (NodeID b) v (NextNodeID b)
                                (NodeCreatedAt b) (NodeLastUpdatedAt b)) b in
  let b := assigned (as_string (data !! "nextNodeId"))
             (λ v b, mkBaseNode (NodeID b) (NodeKind b) v
                                (NodeCreatedAt b) (NodeLastUpdatedAt b)) b in
  let b := assigned (as_time (data !! "createdAt"))
             (λ v b, mkBaseNode (NodeID b) (NodeKind b) (NextNodeID b)
                                v (NodeLastUpdatedAt b)) b in
  assigned (as_time (data !! "lastUpdatedAt"))
    (λ v b, mkBaseNode (NodeID b) (NodeKind b) (NextNodeID b) (NodeCreatedAt b) v) b.

(** [SayNode.ToMap], src/workflow/say_node.go lines 113-124. *)
Definition SayNode_ToMap (n : SimNodes.SayNode) : gmap string dyn :=
  list_to_map
    [("id", DString (NodeID (SimNodes.SayBase n)));
     ("type", DString (NodeKind (SimNodes.SayBase n)));
     ("nextNodeId", DString (NextNodeID (SimNodes.SayBase n)));
     ("message", DString (SimNodes.Message n));
     ("llmPrompt", DString (SimNodes.SayLLMPrompt n));
     ("messageType", DString (SimNodes.MessageType n));
     ("createdAt", DTime (NodeCreatedAt (SimNodes.SayBase n)));
     ("lastUpdatedAt", DTime (NodeLastUpdatedAt (SimNodes.SayBase n)))].

(** [SayNode.FromMap], src/workflow/say_node.go lines 128-162.  It returns
    no error; the node it leaves behind is the result. *)
Definition SayNode_FromMap (data : gmap string dyn) (n : SimNodes.SayNode)
  : SimNodes.SayNode :=
  let message := default (SimNodes.Message n) (as_string (data !! "message")) in
  let llmPrompt := default (SimNodes.SayLLMPrompt n) (as_string (data !! "llmPrompt")) in
  let messageType := default (SimNodes.MessageType n) (as_string (data !! "messageType")) in
  SimNodes.mkSayNode (BaseNode_FromMap data (SimNodes.SayBase n))
                     message llmPrompt messageType.

(** The map of one variable, src/workflows/gather_node.go lines 154-160. *)
Definition GatherVariable_ToMap (v : VarNodes.GatherVariable) : gmap string dyn :=
  list_to_map
    [("name", DString (VarNodes.VarName v));
     ("description", DString (VarNodes.VarDescription v));
     ("dataType", DString (VarNodes.VarDataType v));
     ("required", DBool (VarNodes.VarRequired v));
     ("enumValues", DStrings (VarNodes.EnumValues v))].

(** The variable read from one map, lines 195-217: it starts from the zero
    value. *)
Definition GatherVariable_FromMap (varData : gmap string dyn) : VarNodes.GatherVariable :=
  VarNodes.mkGatherVariable
    (default "" (as_string (varData !! "name")))
    (default "" (as_string (varData !! "description")))
    (default "" (as_string (varData !! "dataType")))
    (default false (as_bool (varData !! "required")))
    (default [] (as_strings (varData !! "enumValues"))).

(** [GatherNode.ToMap], src/workflows/gather_node.go lines 151-176. *)
Definition GatherNode_ToMap (n : VarNodes.GatherNode) : gmap string dyn :=
  list_to_map
    [("id", DString (NodeID (VarNodes.GatherBase n)));
     ("type", DString (NodeKind (VarNodes.GatherBase n)));
     ("nextNodeId", DString (NextNodeID (VarNodes.GatherBase n)));
     ("variables", DMaps (GatherVariable_ToMap <$> VarNodes.GatherVariables n));
     ("maxAttempts", DInt (VarNodes.MaxAttempts n));
     ("llmPrompt", DString (VarNodes.LLMPrompt n));
     ("fallbackNodeId", DString (VarNodes.FallbackNodeID n));
     ("followUpPrompt", DString (VarNodes.FollowUpPrompt n));
     ("extractedData", DData (VarNodes.ExtractedData n));
     ("createdAt", DTime (NodeCreatedAt (VarNodes.GatherBase n)));
     ("lastUpdatedAt", DTime (NodeLastUpdatedAt (VarNodes.GatherBase n)))].

(** [GatherNode.FromMap], src/workflows/gather_node.go lines 179-250. *)
Definition GatherNode_FromMap (data : gmap string dyn) (n : VarNodes.GatherNode)
  : VarNodes.GatherNode :=
  let variables :=
    match as_maps (data !! "variables") with
    | Some variablesData => GatherVariable_FromMap <$> variablesData
    | None => VarNodes.GatherVariables n
    end in
  let maxAttempts := default (VarNodes.MaxAttempts n) (as_int (data !! "maxAttempts")) in
  let llmPrompt := default (VarNodes.LLMPrompt n) (as_string (data !! "llmPrompt")) in
  let fallbackNodeID :=
    default (VarNodes.FallbackNodeID n) (as_string (data !! "fallbackNodeId")) in
  let followUpPrompt :=
    default (VarNodes.FollowUpPrompt n) (as_string (data !! "followUpPrompt")) in
  let extractedData :=
    default (VarNodes.ExtractedData n) (as_data (data !! "extractedData")) in
  VarNodes.mkGatherNode (BaseNode_FromMap data (VarNodes.GatherBase n))
                        variables maxAttempts llmPrompt fallbackNodeID followUpPrompt
                        extractedData.

(** ** More of what the proofs ask of a store, and more fixtures *)

(** A store that serves a written state back under its three ids and
    leaves the workflows alone when a state is written. *)
Class StateReads (N S : Type) `{!WorkflowStorage N S} : Prop := {
  get_saved_state : ∀ (st st' : S) (s : WorkflowState),
    SaveWorkflowState st s = Ok st' →
    GetWorkflowState st' (WorkflowID s) (UserID s) (CallID s) = Ok s;
  save_state_keeps_workflows : ∀ (st st' : S) (s : WorkflowState) workflowID,
    SaveWorkflowState st s = Ok st' →
    GetWorkflow st' workflowID = GetWorkflow st workflowID
}.

#[global] Instance MemStorage_state_reads (N : Type) : StateReads N (MemStore N).
Proof.
  split.
  - intros st st' s Hsave. simpl in *. injection Hsave as <-. simpl.
    by rewrite lookup_insert_eq.
  - intros st st' s workflowID Hsave. simpl in *. by injection Hsave as <-.
Qed.

(** A store that can be read and refuses every write, behind the interface
    of package [workflows]. *)
Record Frozen (N : Type) : Type := mkFrozen { thawed : MemStore N }.

Arguments mkFrozen {N} _.
Arguments thawed {N} _.

#[global] Instance FrozenStorage0 (N : Type) : WorkflowStorage0 N (Frozen N) :=
  {| SaveWorkflow0 := λ _ _, Err (Errorf "read-only store");
     GetWorkflow0 := λ st workflowID,
       match workflows (thawed st) !! workflowID with
       | Some wf => Ok wf
       | None => Err (Errorf "no such workflow")
       end;
     SaveWorkflowState0 := λ _ _, Err (Errorf "read-only store");
     GetWorkflowState0 := λ st workflowID userID callID,
       GetWorkflowState (thawed st) workflowID userID callID |}.

(** ** A Gather node whose extraction fails

    The engine runs any implementation of [Node] (src/workflow/node.go).
    The Gather nodes under src/ simulate the extraction in line and cannot
    fail.  [Down n] is the Gather node [n] of src/workflow/gather_node.go
    behind the same interface at a time when its extraction fails:
    [Execute] returns the failure as its error and touches neither the
    node, the state nor the clock.  [Up n] is a node of [SimNodes] as it
    is. *)
Module DownNodes.

Inductive node : Type :=
  | Down (n : SimNodes.GatherNode)
  | Up (n : SimNodes.node).

Definition base (n : node) : BaseNode :=
  match n with
  | Down n => SimNodes.GatherBase n
  | Up n => SimNodes.base n
  end.

Definition node_Execute `{!JSON} (n : node)
    (state : WorkflowState) (c : Clock) : Result (node * WorkflowState) * Clock :=
  match n with
  | Down _ => (Err (Errorf "extraction failed"), c)
  | Up n =>
      match SimNodes.node_Execute n state c with
      | (Ok (n, state), c) => (Ok (Up n, state), c)
      | (Err e, c) => (Err e, c)
      end
  end.

#[global] Instance Node_node `{!JSON} : Node node :=
  {| ID := λ n, NodeID (base n);
     Type_ := λ n, NodeKind (base n);
     Execute := node_Execute |}.

End DownNodes.

Module MoreFixtures.

Import Fixtures.

Local Open Scope Z_scope.



(** A workflow whose start node is not among its nodes. *)
Definition noStartWf : Workflow SimNodes.node :=
  mkWorkflow "intake" "Intake" "" (<["A" := SimNodes.Gather nodeA]> ∅) "Z" 0 0.

(** [A (Gather) -> B], without a node [B]. *)
Definition danglingWf : Workflow SimNodes.node :=
  mkWorkflow "intake" "Intake" "" (<["A" := SimNodes.Gather nodeA]> ∅) "A" 0 0.

Definition danglingStore : MemStore SimNodes.node := storeAt danglingWf (atNode "A").

(** One update of the chain workflow from [A], and the state it returns. *)
Definition chainRun : Result WorkflowState * World (MemStore SimNodes.node) :=
  @ProcessConversationUpdate _ _ (@SimNodes.Node_node marshal) _
    "intake" "user-1" "call-1" [] (mkWorld chainStore clk).

Definition afterChain : WorkflowState :=
  match chainRun.1 with
  | Ok s => s
  | Err _ => atNode "A"
  end.

(** The chain workflow with the execution at its last node. *)
Definition lastStore : MemStore SimNodes.node := storeAt chainWf (atNode "B").

(** [A (Gather) -> S (Say)] in the revision whose [Execute] can fail, with
    a Say node that does. *)
Definition msgNodeA : MsgNodes.GatherNode :=
  MsgNodes.mkGatherNode (mkBaseNode "A" NodeTypeGather "S" 5 5) userProfile 3
                        extractPrompt "" "" (Some ∅).

Definition brokenWf : Workflow MsgNodes.node :=
  mkWorkflow "intake" "Broken" ""
             (<["A" := MsgNodes.Gather msgNodeA]> (<["S" := MsgNodes.Say bogusMsgSay]> ∅))
             "A" 0 0.

Definition brokenStore : MemStore MsgNodes.node :=
  mkMemStore (<["intake" := brokenWf]> ∅) (<[key1 := atNode "A"]> ∅).

(** The state after [A] has run at time 1000, and the store that holds it. *)
Definition afterA : WorkflowState :=
  mkState "intake" "user-1" "call-1" "S" ["A"]%string (Some ∅) 1000 1001 false.

Definition brokenStoreAfterA : MemStore MsgNodes.node :=
  mkMemStore (<["intake" := brokenWf]> ∅) (<[key1 := afterA]> (<[key1 := atNode "A"]> ∅)).

(** Variables of package [workflows]: an optional string and a required
    date, a data type the simulated extraction does not know. *)
Definition fullName : VarNodes.GatherVariable :=
  VarNodes.mkGatherVariable "name" "Full name" VarNodes.DataTypeString false [].

Definition birthday : VarNodes.GatherVariable :=
  VarNodes.mkGatherVariable "birthday" "Date of birth" "date" true [].

Definition varCollector : VarNodes.GatherNode :=
  VarNodes.mkGatherNode (mkBaseNode "G" NodeTypeGather "T" 5 5) [fullName; birthday] 3
                        extractPrompt "" "" None.

(** [G (Gather) -> T (Say)], with [T] terminal. *)
Definition varWf : Workflow WfNodes.node :=
  mkWorkflow "intake" "Intake" ""
             (<["G" := WfNodes.Gather varCollector]>
              (<["T" := WfNodes.Say (SimNodes.NewSayNode "T" "Thank you." 5)]> ∅))
             "G" 0 0.

Definition varStore : MemStore WfNodes.node :=
  mkMemStore (<["intake" := varWf]> ∅) (<[key1 := atNode "G"]> ∅).

(** A control channel that takes every message and answers 200. *)
Definition openChannel : ControlChannel :=
  {| marshalAddMessage := λ message, Ok ("add-message: " +:+ message);
     http_POST := λ _ _, Response 200 "ok" |}.

Definition userTurn : list vapi_Message :=
  [mkMessage "assistant" "Hello."; mkMessage "user" "I am Ada."].

(** The two methods of engine.go behind [ProcessVAPIUpdate]; the nodes of
    this engine do not read the conversation, so none is passed on. *)
Definition engineUpdate
  : string → string → string → list vapi_Message
    → M (MemStore WfNodes.node) WorkflowState :=
  λ workflowID userID callID _,
    @ProcessConversationUpdate _ _ (@WfNodes.Node_node marshal) _
      workflowID userID callID [].

Definition engineMessage : string → string → string → M (MemStore WfNodes.node) string :=
  WfNodes.GetCurrentNodeMessage.

(** One update of [varStore], and what it leaves behind. *)
Definition varRun : Result WorkflowState * World (MemStore WfNodes.node) :=
  engineUpdate "intake" "user-1" "call-1" userTurn (mkWorld varStore clk).


Definition afterUpdate : World (MemStore WfNodes.node) := varRun.2.

End MoreFixtures.

(** Read the three components off an equation between two successful
    executions without unfolding them. *)
Ltac ok_inj H :=
  match type of H with
  | (Ok (?a, ?b), ?c) = (Ok (?a', ?b'), ?c') =>
      let Ha := fresh "Hnode" in
      let Hb := fresh "Hstate" in
      let Hc := fresh "Hclock" in
      assert (a = a') as Ha by congruence;
      assert (b = b') as Hb by congruence;
      assert (c = c') as Hc by congruence;
      clear H
  end.

(** * Properties *)

(** ** The shared tail of [Execute] *)

Lemma advance_completed b s c :
  CompletedNodeIDs (advance b s c).1 = CompletedNodeIDs s ++ [NodeID b].
Proof. unfold advance. simpl. by case_decide. Qed.

Lemma advance_variables b s c : Variables (advance b s c).1 = Variables s.
Proof. unfold advance. simpl. by case_decide. Qed.

Lemma advance_next b s c :
  NextNodeID b ≠ "" →
  CurrentNodeID (advance b s c).1 = NextNodeID b
  ∧ IsComplete (advance b s c).1 = IsComplete s.
Proof. intros Hn. unfold advance. simpl. by rewrite decide_True. Qed.

Lemma advance_terminal b s c :
  NextNodeID b = "" →
  CurrentNodeID (advance b s c).1 = CurrentNodeID s
  ∧ IsComplete (advance b s c).1 = true.
Proof. intros Hn. unfold advance. simpl. rewrite decide_False; [done|]. by intros []. Qed.

Lemma set_Variables_same s : set_Variables (Variables s) s = s.
Proof. by destruct s. Qed.

(** ** Loops over maps *)

Lemma assignAll_lookup (src dst : gmap string any) k :
  assignAll src dst !! k = match src !! k with Some v => Some v | None => dst !! k end.
Proof.
  unfold assignAll.
  induction src as [|i x m Hi Hfold IH] using map_first_key_ind.
  - by rewrite map_fold_empty, lookup_empty.
  - rewrite map_fold_insert_first_key by done.
    destruct (decide (i = k)) as [->|Hne].
    + by rewrite !lookup_insert_eq.
    + by rewrite !lookup_insert_ne.
Qed.

Lemma assignAll_empty (dst : gmap string any) : assignAll ∅ dst = dst.
Proof. unfold assignAll. by rewrite map_fold_empty. Qed.

Lemma isRequired_elem (required : list string) (p : string) :
  isRequired required p = true ↔ p ∈ required.
Proof.
  induction required as [|req rest IH]; simpl.
  - split; [done|]. by intros ?%elem_of_nil.
  - case_decide as He.
    + subst. split; [|done]. intros _. by left.
    + rewrite IH. split; [by right|]. by intros [?|?]%elem_of_cons.
Qed.

(** ** The engine, for any nodes and any store *)

Section EngineFacts.

Context {N S : Type} `{!Node N} `{!WorkflowStorage N S}.

(** The first half of [ProcessConversationUpdate], up to the first save. *)
Lemma process_first_hop workflowID userID callID messages (w : World S)
    wf s cur cur' s1 c1 st1 :
  GetWorkflow (storage w) workflowID = Ok (Some wf) →
  GetWorkflowState (storage w) workflowID userID callID = Ok s →
  IsComplete s = false →
  Nodes wf !! CurrentNodeID s = Some cur →
  Execute cur (set_LastMessageAt (time_Now (clock w)).1 s) (time_Now (clock w)).2
  = (Ok (cur', s1), c1) →
  SaveWorkflowState (storage w) s1 = Ok st1 →
  ProcessConversationUpdate workflowID userID callID messages w
  = autoAdvance (set_Nodes (<[CurrentNodeID s := cur']> (Nodes wf)) wf) (ID cur') s1
                (mkWorld st1 c1).
Proof.
  intros Hwf Hs Hc Hcur Hex Hsave. simpl in Hex.
  unfold ProcessConversationUpdate, bind, wrapping, storage_GetWorkflow,
    storage_GetWorkflowState, now, node_Execute, storage_SaveWorkflowState.
  rewrite Hwf, Hs, Hc. simpl. rewrite Hcur. simpl.
  rewrite Hex. simpl. rewrite Hsave. reflexivity.
Qed.

Lemma autoAdvance_stays (wf : Workflow N) currentID s (w : World S) :
  IsComplete s = true ∨ CurrentNodeID s = currentID →
  autoAdvance wf currentID s w = (Ok s, w).
Proof.
  intros [Hc | He]; unfold autoAdvance.
  - by rewrite Hc.
  - rewrite bool_decide_false by (by intros []). by rewrite andb_false_r.
Qed.

Lemma autoAdvance_moved (wf : Workflow N) currentID s (w : World S) :
  IsComplete s = false → CurrentNodeID s ≠ currentID →
  autoAdvance wf currentID s w =
  match Nodes wf !! CurrentNodeID s with
  | None => (Ok s, w)
  | Some nextNode =>
      if decide (Type_ nextNode = NodeTypeSay) then
        match Execute nextNode s (clock w) with
        | (Ok (_, s2), c2) =>
            match SaveWorkflowState (storage w) s2 with
            | Ok st2 => (Ok s2, mkWorld st2 c2)
            | Err e => (Err (Wrapf "failed to save workflow state" e),
                        mkWorld (storage w) c2)
            end
        | (Err e, c2) => (Err (Wrapf "node execution failed" e), mkWorld (storage w) c2)
        end
      else (Ok s, w)
  end.
Proof.
  intros Hc Hne. unfold autoAdvance.
  rewrite Hc, bool_decide_true by done. simpl.
  destruct (Nodes wf !! CurrentNodeID s) as [nx|]; [|done].
  case_decide; [|done].
  unfold bind, wrapping, node_Execute, storage_SaveWorkflowState.
  destruct (Execute nx s (clock w)) as [[[n2 s2]|e] c2]; simpl; [|done].
  by destruct (SaveWorkflowState (storage w) s2).
Qed.

(** C2: for a state that is already complete, [ProcessConversationUpdate]
    returns exactly the state it loaded, and leaves the store and the clock
    as they were: no field changes, [LastMessageAt] included, and nothing
    is saved. *)
Theorem complete_is_terminal workflowID userID callID messages (w : World S) wf s :
  GetWorkflow (storage w) workflowID = Ok (Some wf) →
  GetWorkflowState (storage w) workflowID userID callID = Ok s →
  IsComplete s = true →
  ProcessConversationUpdate workflowID userID callID messages w = (Ok s, w).
Proof.
  intros Hwf Hs Hc.
  unfold ProcessConversationUpdate, bind, wrapping, storage_GetWorkflow,
    storage_GetWorkflowState.
  rewrite Hwf, Hs, Hc. reflexivity.
Qed.

(** C6: when the state is not complete and its current node id is no key of
    the workflow's nodes, [ProcessConversationUpdate] fails with
    [ErrNodeNotFound] carrying that id, and the store is the one the call
    started with. *)
Theorem unknown_current_node workflowID userID callID messages (w : World S) wf s :
  GetWorkflow (storage w) workflowID = Ok (Some wf) →
  GetWorkflowState (storage w) workflowID userID callID = Ok s →
  IsComplete s = false →
  Nodes wf !! CurrentNodeID s = None →
  ∃ w', ProcessConversationUpdate workflowID userID callID messages w
        = (Err (ErrNodeNotFound (CurrentNodeID s)), w')
        ∧ storage w' = storage w.
Proof.
  intros Hwf Hs Hc Hcur.
  unfold ProcessConversationUpdate, bind, wrapping, storage_GetWorkflow,
    storage_GetWorkflowState, now.
  rewrite Hwf, Hs, Hc. simpl. rewrite Hcur. eauto.
Qed.

(** C4: when the execution has already started (its stored state has a
    current node), [StartWorkflow] returns the stored state as it is, so
    the current node is the one the first call set, and nothing is
    written. *)
Theorem start_already_started workflowID userID callID (w : World S) wf s :
  GetWorkflow (storage w) workflowID = Ok (Some wf) →
  GetWorkflowState (storage w) workflowID userID callID = Ok s →
  CurrentNodeID s ≠ "" →
  StartWorkflow workflowID userID callID w = (Ok s, w).
Proof.
  intros Hwf Hs Hc.
  unfold StartWorkflow, bind, wrapping, storage_GetWorkflow, storage_GetWorkflowState.
  rewrite Hwf, Hs. simpl. by rewrite decide_False.
Qed.

End EngineFacts.

(** ** The earlier copy of the engine *)

Section Engine0Facts.

Context {N S : Type} `{!Node N} `{!WorkflowStorage0 N S}.

(** Processing an update is the same function in both copies. *)
Lemma process0_same workflowID userID callID messages (w : World S) :
  ProcessConversationUpdate0 workflowID userID callID messages w
  = @ProcessConversationUpdate N S _ found_storage workflowID userID callID messages w.
Proof.
  unfold ProcessConversationUpdate0, ProcessConversationUpdate, bind, wrapping,
    storage_GetWorkflow0, storage_GetWorkflow.
  simpl. by destruct (GetWorkflow0 (storage w) workflowID).
Qed.

(** The earlier [StartWorkflow] returns a started state unchanged as well;
    it writes that same state back. *)
Lemma start0_already_started workflowID userID callID (w : World S) wf s st' :
  GetWorkflow0 (storage w) workflowID = Ok wf →
  GetWorkflowState0 (storage w) workflowID userID callID = Ok s →
  CurrentNodeID s ≠ "" →
  SaveWorkflowState0 (storage w) s = Ok st' →
  StartWorkflow0 workflowID userID callID w = (Ok s, mkWorld st' (clock w)).
Proof.
  intros Hwf Hs Hc Hsave.
  unfold StartWorkflow0, bind, wrapping, storage_GetWorkflow0, storage_GetWorkflowState,
    storage_SaveWorkflowState.
  simpl. rewrite Hwf, Hs. rewrite decide_False by done. by rewrite Hsave.
Qed.

End Engine0Facts.

(** ** Creating and starting, on a store that works *)

Section CreateAndStart.

Context {N S : Type} `{!WorkflowStorage N S}.
Context `{!WorkflowWrites N S} `{!StateWrites N S}.

(** What [CreateWorkflow] hands to the store. *)
Lemma CreateWorkflow_valid (W : Workflow N) (w : World S) :
  ID_ W ≠ "" → StartNodeID W ≠ "" → is_Some (Nodes W !! StartNodeID W) →
  ∃ W', CreateWorkflow W w
        = storage_SaveWorkflow W' (mkWorld (storage w) (time_Now (clock w)).2)
        ∧ ID_ W' = ID_ W ∧ StartNodeID W' = StartNodeID W ∧ Nodes W' = Nodes W.
Proof.
  intros Hid Hstart [n Hn]. unfold CreateWorkflow.
  rewrite !decide_False; [| |done|done].
  2:{ apply map_size_ne_0_lookup. eauto. }
  rewrite Hn. unfold bind, now. simpl. eauto.
Qed.

(** C3, amended: a workflow with a non-empty id and a non-empty start node
    id that is a key of its nodes is accepted by [CreateWorkflow]; for a
    triple whose execution has not started (its stored state has no current
    node), the [StartWorkflow] that follows returns a state whose current
    node is the workflow's start node. *)
Theorem create_then_start (W : Workflow N) userID callID (w : World S) s0 :
  ID_ W ≠ "" → StartNodeID W ≠ "" → is_Some (Nodes W !! StartNodeID W) →
  GetWorkflowState (storage w) (ID_ W) userID callID = Ok s0 →
  CurrentNodeID s0 = "" →
  ∃ w1 s w2,
    CreateWorkflow W w = (Ok tt, w1)
    ∧ StartWorkflow (ID_ W) userID callID w1 = (Ok s, w2)
    ∧ CurrentNodeID s = StartNodeID W.
Proof.
  intros Hid Hstart Hnode Hs0 Hfresh.
  destruct (CreateWorkflow_valid W w Hid Hstart Hnode) as (W' & Hcreate & HidW & HstartW & _).
  destruct (save_workflow_ok (storage w) W') as [st1 Hsave].
  pose proof (get_saved_workflow _ _ _ Hsave) as Hget. rewrite HidW in Hget.
  pose proof (save_workflow_keeps_states _ _ _ (ID_ W) userID callID Hsave) as Hkeep.
  rewrite Hs0 in Hkeep.
  destruct (save_state_ok st1 (set_CurrentNodeID (StartNodeID W') s0)) as [st2 Hsave2].
  exists (mkWorld st1 (time_Now (clock w)).2),
         (set_CurrentNodeID (StartNodeID W') s0),
         (mkWorld st2 (time_Now (clock w)).2).
  split; [|split].
  - rewrite Hcreate. unfold storage_SaveWorkflow. simpl. by rewrite Hsave.
  - unfold StartWorkflow, bind, wrapping, storage_GetWorkflow, storage_GetWorkflowState,
      storage_SaveWorkflowState, ret.
    cbn [storage clock]. rewrite Hget. cbn [storage clock]. rewrite Hkeep.
    rewrite decide_True by done. cbn [storage clock]. by rewrite Hsave2.
  - by rewrite <- HstartW.
Qed.

End CreateAndStart.

(** ** Nodes with simulated extraction *)

Section SimNodesFacts.

Context `{!JSON}.

Import SimNodes.

Lemma SayNode_Execute_eq (n : SayNode) s c :
  SayNode_Execute n s c
  = (Ok (n, (advance (SayBase n)
               (set_Variables
                  (Some (<["lastSayMessage" := VString (sayMessage n s)]>
                           (made (Variables s))))
                  s) c).1),
     (time_Now c).2).
Proof. reflexivity. Qed.

Lemma GatherNode_Execute_eq (n : GatherNode) s c :
  GatherNode_Execute n s c
  = let data := made (ExtractedData n) in
    let missing := missingRequired n data in
    let ds := if decide (0 < length missing) then
                (extractMissing n missing data,
                 set_Variables
                   (Some (assignAll (extractMissing n missing data) (made (Variables s)))) s)
              else (data, s) in
    (Ok (set_ExtractedData (Some ds.1) n, (advance (GatherBase n) ds.2 c).1),
     (time_Now c).2).
Proof. unfold GatherNode_Execute. simpl. by case_decide. Qed.

(** Every [Execute] of this package succeeds, keeps the node's identity
    and changes the state by at most its variables before [advance]. *)
Lemma sim_execute_shape (n : node) s c :
  ∃ n' vars,
    node_Execute n s c
    = (Ok (n', (advance (base n) (set_Variables vars s) c).1), (time_Now c).2)
    ∧ base n' = base n.
Proof.
  destruct n as [n|n]; unfold node_Execute.
  - rewrite SayNode_Execute_eq. eexists _, _. split; reflexivity.
  - rewrite GatherNode_Execute_eq. cbv zeta. case_decide.
    + eexists _, _. split; reflexivity.
    + exists (Gather (set_ExtractedData (Some (made (ExtractedData n))) n)), (Variables s).
      rewrite set_Variables_same. split; reflexivity.
Qed.




(** What the simulated extraction considers missing is a required property
    of the schema that [ExtractedData] lacks. *)
Lemma missingRequired_sound (n : GatherNode) data p :
  p ∈ missingRequired n data →
  p ∈ Minds.Required (GatherSchema n) ∧ data !! p = None.
Proof.
  unfold missingRequired.
  destruct (Minds.Properties (GatherSchema n)) as [props|]; [|by intros ?%elem_of_nil].
  case_decide; [|by intros ?%elem_of_nil].
  intros ([q d] & _ & Hq)%list_elem_of_omap.
  destruct (isRequired _ q) eqn:Hreq; [|done]. simpl in Hq.
  case_bool_decide as Hsome; [done|]. simpl in Hq. injection Hq as ->.
  split; [by apply isRequired_elem|]. by apply eq_None_not_Some.
Qed.

End SimNodesFacts.

(** ** The engine over the nodes with simulated extraction *)

Section SimEngine.

Context `{!JSON} {S : Type}.
Context `{!WorkflowStorage SimNodes.node S} `{!StateWrites SimNodes.node S}.

Import SimNodes.

(** One call on a state that is not complete: the current node runs and
    the state is saved; then the call returns, or runs the successor. *)
Lemma sim_process workflowID userID callID messages (w : World S) wf s cur :
  GetWorkflow (storage w) workflowID = Ok (Some wf) →
  GetWorkflowState (storage w) workflowID userID callID = Ok s →
  IsComplete s = false →
  Nodes wf !! CurrentNodeID s = Some cur →
  ∃ vars1 w1 s1,
    s1 = (advance (base cur)
            (set_Variables vars1 (set_LastMessageAt (time_Now (clock w)).1 s))
            (time_Now (clock w)).2).1
    ∧ (IsComplete s1 = true ∨ CurrentNodeID s1 = NodeID (base cur) →
       ProcessConversationUpdate workflowID userID callID messages w = (Ok s1, w1))
    ∧ (∀ nxt, IsComplete s1 = false → CurrentNodeID s1 ≠ NodeID (base cur) →
       Nodes wf !! CurrentNodeID s1 = Some nxt →
       if decide (NodeKind (base nxt) = NodeTypeSay) then
         ∃ vars2 w2,
           ProcessConversationUpdate workflowID userID callID messages w
           = (Ok (advance (base nxt) (set_Variables vars2 s1) (clock w1)).1, w2)
       else ProcessConversationUpdate workflowID userID callID messages w = (Ok s1, w1)).
Proof.
  intros Hwf Hs Hc Hcur.
  destruct (sim_execute_shape cur (set_LastMessageAt (time_Now (clock w)).1 s)
              (time_Now (clock w)).2) as (cur' & vars1 & Hex & Hbase).
  set (s1 := (advance _ _ _).1) in Hex.
  destruct (save_state_ok (storage w) s1) as [st1 Hsave].
  pose proof (process_first_hop workflowID userID callID messages w wf s cur cur' s1 _ st1
                Hwf Hs Hc Hcur Hex Hsave) as Hrun.
  change (ID cur') with (NodeID (base cur')) in Hrun. rewrite Hbase in Hrun.
  set (c1 := (time_Now (time_Now (clock w)).2).2) in *.
  exists vars1, (mkWorld st1 c1), s1.
  split; [done|]. clearbody s1. split.
  - intros Hstay. rewrite Hrun. by apply autoAdvance_stays.
  - intros nxt Hc1 Hne Hnxt. rewrite Hrun, autoAdvance_moved by done.
    change (Nodes (set_Nodes ?m _)) with m.
    assert (∃ nx, <[CurrentNodeID s := cur']> (Nodes wf) !! CurrentNodeID s1 = Some nx
                  ∧ base nx = base nxt) as (nx & -> & Hnx).
    { destruct (decide (CurrentNodeID s = CurrentNodeID s1)) as [He|He].
      - rewrite He, lookup_insert_eq. exists cur'. split; [done|].
        rewrite He, Hnxt in Hcur. by simplify_eq.
      - rewrite lookup_insert_ne by done. eauto. }
    change (Type_ nx) with (NodeKind (base nx)). rewrite Hnx. case_decide; [|done].
    change (clock (mkWorld st1 c1)) with c1. change (storage (mkWorld st1 c1)) with st1.
    destruct (sim_execute_shape nx s1 c1) as (nx' & vars2 & Hex2 & _).
    change (Execute nx s1 c1) with (node_Execute nx s1 c1).
    rewrite Hex2, Hnx.
    destruct (save_state_ok st1 (advance (base nxt) (set_Variables vars2 s1) c1).1)
      as [st2 ->].
    eauto.
Qed.

(** C5: when the current node has run and moved the state to another node
    of the workflow, that node is run in the same call if and only if its
    type is "say", and nothing further is run: the nodes completed by the
    call are the current node, followed by its successor exactly when the
    successor is of type "say".  A successor of any other type, such as
    "gather", is left as the current node for the next update. *)
Theorem auto_advance_once workflowID userID callID messages (w : World S)
    wf s cur nxt :
  GetWorkflow (storage w) workflowID = Ok (Some wf) →
  GetWorkflowState (storage w) workflowID userID callID = Ok s →
  IsComplete s = false →
  Nodes wf !! CurrentNodeID s = Some cur →
  NextNodeID (base cur) ≠ "" →
  NextNodeID (base cur) ≠ NodeID (base cur) →
  Nodes wf !! NextNodeID (base cur) = Some nxt →
  ∃ s' w',
    ProcessConversationUpdate workflowID userID callID messages w = (Ok s', w')
    ∧ CompletedNodeIDs s'
      = CompletedNodeIDs s ++ NodeID (base cur)
          :: (if decide (NodeKind (base nxt) = NodeTypeSay)
              then [NodeID (base nxt)] else [])
    ∧ (NodeKind (base nxt) ≠ NodeTypeSay →
       CurrentNodeID s' = NextNodeID (base cur) ∧ IsComplete s' = false).
Proof.
  intros Hwf Hs Hc Hcur Hnext Hnew Hnxt.
  destruct (sim_process workflowID userID callID messages w wf s cur Hwf Hs Hc Hcur)
    as (vars1 & w1 & s1 & Hs1 & _ & Hhop).
  assert (CurrentNodeID s1 = NextNodeID (base cur) ∧ IsComplete s1 = false) as [Hcur1 Hc1].
  { rewrite Hs1. by destruct (advance_next (base cur)
      (set_Variables vars1 (set_LastMessageAt (time_Now (clock w)).1 s))
      (time_Now (clock w)).2 Hnext) as [-> ->]. }
  assert (CompletedNodeIDs s1 = CompletedNodeIDs s ++ [NodeID (base cur)]) as Hdone1.
  { by rewrite Hs1, advance_completed. }
  specialize (Hhop nxt Hc1). rewrite Hcur1 in Hhop. specialize (Hhop Hnew Hnxt).
  destruct (decide (NodeKind (base nxt) = NodeTypeSay)) as [Hsay|Hsay].
  - destruct Hhop as (vars2 & w2 & ->). eexists _, _. split; [done|]. split; [|done].
    rewrite advance_completed. simpl. rewrite Hdone1. by rewrite <- app_assoc.
  - exists s1, w1. by rewrite Hhop, Hdone1.
Qed.

(** C10: when the current node names itself as its successor, the call
    returns the state that one [Execute] of that node produced, whatever
    the node's type: the node is recorded as completed once and no second
    node is run. *)
Theorem self_loop_runs_once workflowID userID callID messages (w : World S) wf s cur :
  GetWorkflow (storage w) workflowID = Ok (Some wf) →
  GetWorkflowState (storage w) workflowID userID callID = Ok s →
  IsComplete s = false →
  Nodes wf !! CurrentNodeID s = Some cur →
  NextNodeID (base cur) = NodeID (base cur) →
  ∃ cur' s1 c1 w',
    Execute cur (set_LastMessageAt (time_Now (clock w)).1 s) (time_Now (clock w)).2
    = (Ok (cur', s1), c1)
    ∧ ProcessConversationUpdate workflowID userID callID messages w = (Ok s1, w')
    ∧ CompletedNodeIDs s1 = CompletedNodeIDs s ++ [NodeID (base cur)].
Proof.
  intros Hwf Hs Hc Hcur Hloop.
  destruct (sim_execute_shape cur (set_LastMessageAt (time_Now (clock w)).1 s)
              (time_Now (clock w)).2) as (cur' & vars1 & Hex & Hbase).
  set (s1 := (advance _ _ _).1) in Hex.
  destruct (save_state_ok (storage w) s1) as [st1 Hsave].
  exists cur', s1, (time_Now (time_Now (clock w)).2).2,
         (mkWorld st1 (time_Now (time_Now (clock w)).2).2).
  split; [done|]. split.
  - pose proof (process_first_hop workflowID userID callID messages w wf s cur cur' s1 _ st1
                  Hwf Hs Hc Hcur Hex Hsave) as Hrun.
    rewrite Hrun. apply autoAdvance_stays.
    change (ID cur') with (NodeID (base cur')). rewrite Hbase.
    destruct (decide (NextNodeID (base cur) = "")) as [He|He].
    + left. by apply advance_terminal.
    + right. rewrite <- Hloop. by apply advance_next.
  - unfold s1. by rewrite advance_completed.
Qed.

End SimEngine.

Section SimChain.

Context `{!JSON} {S : Type}.
Context `{!WorkflowStorage SimNodes.node S} `{!StateWrites SimNodes.node S}.

Import SimNodes.


(** C7, what the code does: [SayNode.Execute] of src/workflow/say_node.go
    accepts a node whose [MessageType] is neither "exact" nor "generated".
    It returns no error, stores the empty string as [lastSayMessage] and
    records the node as completed. *)
Theorem say_unsupported_type_accepted (n : SayNode) (s : WorkflowState) (c : Clock) :
  MessageType n ≠ "exact" → MessageType n ≠ "generated" →
  ∃ s', SayNode_Execute n s c = (Ok (n, s'), (time_Now c).2)
        ∧ var_lookup s' "lastSayMessage" = Some (VString "")
        ∧ CompletedNodeIDs s' = CompletedNodeIDs s ++ [NodeID (SayBase n)].
Proof.
  intros Hexact Hgen. rewrite SayNode_Execute_eq. eexists. split; [done|].
  unfold var_lookup. rewrite advance_variables, advance_completed. simpl.
  split; [|done]. rewrite lookup_insert_eq. unfold sayMessage.
  by rewrite !decide_False.
Qed.

End SimChain.

(** ** Nodes whose [Execute] receives the conversation *)

Section MsgNodesFacts.

Import MsgNodes.

Lemma Msg_GatherNode_Execute_eq (n : GatherNode) s messages c :
  GatherNode_Execute n s messages c
  = let n1 := set_ExtractedData (Some (made (ExtractedData n))) n in
    let s1 := if decide (0 < length (getMissingProperties n1)) then
                set_Variables
                  (Some (assignAll (made (ExtractedData n)) (made (Variables s)))) s
              else s in
    (Ok (n1, (advance (GatherBase n) s1 c).1), (time_Now c).2).
Proof. reflexivity. Qed.

(** [getMissingProperties] lists only properties that the schema requires,
    that are not nullable and that [ExtractedData] lacks. *)
Lemma getMissingProperties_sound (n : GatherNode) p :
  p ∈ getMissingProperties n →
  p ∈ Minds.Required (GatherSchema n)
  ∧ (∃ props d, Minds.Properties (GatherSchema n) = Some props
                ∧ props !! p = Some d ∧ Minds.Nullable d = false)
  ∧ has_key (ExtractedData n) p = false.
Proof.
  unfold getMissingProperties.
  destruct (Minds.Properties (GatherSchema n)) as [props|] eqn:Hprops;
    [|by intros ?%elem_of_nil].
  case_decide; [|by intros ?%elem_of_nil].
  intros ([q d] & Hin & Hq)%list_elem_of_omap.
  apply elem_of_map_to_list in Hin.
  destruct (isRequired _ q) eqn:Hreq; [|done].
  destruct (Minds.Nullable d) eqn:Hnull; [done|]. simpl in Hq.
  destruct (has_key (ExtractedData n) q) eqn:Hkey; [done|]. injection Hq as ->.
  split; [by apply isRequired_elem|]. split; [|done]. eauto.
Qed.

(** In this revision a Say node with another [MessageType] is refused,
    and only such a node. *)
Lemma Msg_SayNode_Execute_error (n : SayNode) s messages c :
  is_Err (SayNode_Execute n s messages c).1 = true
  ↔ SayMessageType n ≠ MessageTypeExact ∧ SayMessageType n ≠ MessageTypeGenerated.
Proof.
  unfold SayNode_Execute, sayMessage.
  destruct (decide (SayMessageType n = MessageTypeExact)) as [He|He]; simpl.
  { split; [done|]. by intros [? _]. }
  destruct (decide (SayMessageType n = MessageTypeGenerated)) as [Hg|Hg]; simpl.
  { split; [done|]. by intros [_ ?]. }
  done.
Qed.

Lemma Msg_GatherNode_Execute_ok (n : GatherNode) s messages c :
  is_Err (GatherNode_Execute n s messages c).1 = false.
Proof. by rewrite Msg_GatherNode_Execute_eq. Qed.

(** C9, what the code does: [GatherNode.Execute] of
    src/workflow/gather_node.go (lines 63-108) copies [ExtractedData] into
    the variables and extracts nothing.  For a node whose [ExtractedData]
    is empty, as [NewGatherNode] builds it, the variables after [Execute]
    are the variables before it, although the node is recorded as
    completed. *)
Theorem gather_without_extraction_adds_nothing (n : GatherNode) s messages c :
  made (ExtractedData n) = ∅ →
  ∃ n' s',
    GatherNode_Execute n s messages c = (Ok (n', s'), (time_Now c).2)
    ∧ (∀ p, var_lookup s' p = var_lookup s p)
    ∧ CompletedNodeIDs s' = CompletedNodeIDs s ++ [NodeID (GatherBase n)].
Proof.
  intros Hempty. rewrite Msg_GatherNode_Execute_eq. cbv zeta.
  eexists _, _. split; [done|]. rewrite advance_completed. split.
  - intros p. unfold var_lookup. rewrite advance_variables.
    case_decide; [|done]. simpl. rewrite Hempty, assignAll_empty.
    by destruct (Variables s).
  - by case_decide.
Qed.

End MsgNodesFacts.

(** ** Retry settings *)

Lemma Var_GatherNode_Execute_eq (n : VarNodes.GatherNode) s c :
  VarNodes.GatherNode_Execute n s c
  = let data := made (VarNodes.ExtractedData n) in
    let missing :=
      filter (λ variable, ¬ is_Some (data !! VarNodes.VarName variable))
             (VarNodes.GatherVariables n) in
    let ds := if decide (0 < length missing) then
                let data' := foldl (λ data variable, VarNodes.sampleVariable variable data)
                                   data missing in
                (data', set_Variables (Some (assignAll data' (made (Variables s)))) s)
              else (data, s) in
    (Ok (VarNodes.set_ExtractedData (Some ds.1) n,
         (advance (VarNodes.GatherBase n) ds.2 c).1),
     (time_Now c).2).
Proof. unfold VarNodes.GatherNode_Execute. simpl. by case_decide. Qed.


(** * The theorems at work on the fixtures *)

Section OnFixtures.

Import Fixtures.

#[local] Existing Instance marshal.

(** A finished execution of the chain workflow: the update changes nothing. *)
Lemma complete_is_terminal_witness :
  ProcessConversationUpdate "intake" "user-1" "call-1" [] (mkWorld doneStore clk)
  = (Ok doneState, mkWorld doneStore clk).
Proof.
  apply (complete_is_terminal "intake" "user-1" "call-1" [] (mkWorld doneStore clk)
           chainWf doneState); vm_compute; reflexivity.
Defined.

(** An execution standing at a node the chain workflow does not have. *)
Lemma unknown_current_node_witness :
  ∃ w', ProcessConversationUpdate "intake" "user-1" "call-1" [] (mkWorld lostStore clk)
        = (Err (ErrNodeNotFound "ghost"), w')
        ∧ storage w' = lostStore.
Proof.
  apply (unknown_current_node "intake" "user-1" "call-1" [] (mkWorld lostStore clk)
           chainWf (atNode "ghost")); vm_compute; reflexivity.
Defined.

(** [StartWorkflow] twice: the first call places the execution at [A], the
    second returns that state and leaves the store as the first left it. *)
Lemma start_already_started_witness :
  StartWorkflow "intake" "user-1" "call-1" (mkWorld freshStore clk)
  = (Ok (atNode "A"), mkWorld chainStore clk)
  ∧ StartWorkflow "intake" "user-1" "call-1" (mkWorld chainStore clk)
    = (Ok (atNode "A"), mkWorld chainStore clk).
Proof.
  split; [vm_compute; reflexivity|].
  apply (start_already_started "intake" "user-1" "call-1" (mkWorld chainStore clk)
           chainWf (atNode "A")); [vm_compute; reflexivity .. | discriminate].
Defined.

(** The chain workflow created in an empty store and then started. *)
Lemma create_then_start_witness :
  ∃ w1 s w2,
    CreateWorkflow chainWf (mkWorld emptyStore clk) = (Ok tt, w1)
    ∧ StartWorkflow "intake" "user-1" "call-1" w1 = (Ok s, w2)
    ∧ CurrentNodeID s = "A".
Proof.
  apply (create_then_start chainWf "user-1" "call-1" (mkWorld emptyStore clk)
           (freshState "intake" "user-1" "call-1"));
    [discriminate | discriminate | by eexists | vm_compute; reflexivity | reflexivity].
Defined.

(** C3, as stated, fails.  A workflow whose start node is stored under the
    empty string meets the three conditions and is rejected by
    [CreateWorkflow]; and with a non-empty start node id, a triple that
    already has progress in the store is returned at its old node, not at
    the start node. *)
Lemma create_then_start_needs_more :
  ¬ (∀ (W : Workflow SimNodes.node) userID callID (w : World (MemStore SimNodes.node)),
       ID_ W ≠ "" → size (Nodes W) ≠ 0 → is_Some (Nodes W !! StartNodeID W) →
       ∃ w1 s w2,
         CreateWorkflow W w = (Ok tt, w1)
         ∧ StartWorkflow (ID_ W) userID callID w1 = (Ok s, w2)
         ∧ CurrentNodeID s = StartNodeID W)
  ∧ ¬ (∀ (W : Workflow SimNodes.node) userID callID (w : World (MemStore SimNodes.node)),
       ID_ W ≠ "" → StartNodeID W ≠ "" → is_Some (Nodes W !! StartNodeID W) →
       ∃ w1 s w2,
         CreateWorkflow W w = (Ok tt, w1)
         ∧ StartWorkflow (ID_ W) userID callID w1 = (Ok s, w2)
         ∧ CurrentNodeID s = StartNodeID W).
Proof.
  split; intros Hclaim.
  - destruct (Hclaim emptyKeyWf "user-1" "call-1" (mkWorld emptyStore clk))
      as (w1 & s & w2 & Hcreate & _); [discriminate | by vm_compute | by eexists |].
    vm_compute in Hcreate. discriminate.
  - destruct (Hclaim chainWf "user-1" "call-1" (mkWorld resumedStore clk))
      as (w1 & s & w2 & Hcreate & Hstart & Hcur); [discriminate | discriminate | by eexists |].
    vm_compute in Hcreate. injection Hcreate as <-.
    vm_compute in Hstart. injection Hstart as <- _.
    vm_compute in Hcur. discriminate.
Qed.


(** The chain workflow: the Say successor of [A] runs in the same call. *)
Lemma auto_advance_once_witness :
  ∃ s' w',
    ProcessConversationUpdate "intake" "user-1" "call-1" [] (mkWorld chainStore clk)
    = (Ok s', w')
    ∧ CompletedNodeIDs s' = ["A"; "B"].
Proof.
  destruct (auto_advance_once "intake" "user-1" "call-1" [] (mkWorld chainStore clk)
              chainWf (atNode "A") (SimNodes.Gather nodeA) (SimNodes.Say nodeB))
    as (s' & w' & Hrun & Hdone & _);
    [vm_compute; reflexivity .. | discriminate | discriminate | vm_compute; reflexivity |].
  exists s', w'. split; [exact Hrun | exact Hdone].
Defined.

(** A Say node that is its own successor runs once per update. *)
Lemma self_loop_runs_once_witness :
  ∃ s1 w',
    ProcessConversationUpdate "intake" "user-1" "call-1" [] (mkWorld loopStore clk)
    = (Ok s1, w')
    ∧ CompletedNodeIDs s1 = ["L"].
Proof.
  destruct (self_loop_runs_once "intake" "user-1" "call-1" [] (mkWorld loopStore clk)
              loopWf (atNode "L") (SimNodes.Say nodeL))
    as (cur' & s1 & c1 & w' & _ & Hrun & Hdone); [vm_compute; reflexivity ..|].
  exists s1, w'. split; [exact Hrun | exact Hdone].
Defined.

(** A Say node with [MessageType] "bogus" is executed without error. *)
Lemma say_unsupported_type_accepted_witness :
  ∃ s', SimNodes.SayNode_Execute bogusSay (atNode "S") clk
        = (Ok (bogusSay, s'), (time_Now clk).2)
        ∧ var_lookup s' "lastSayMessage" = Some (VString "")
        ∧ CompletedNodeIDs s' = ["S"].
Proof.
  apply (say_unsupported_type_accepted bogusSay (atNode "S") clk); discriminate.
Defined.

(** The test of gather_node_test.go on the revision it belongs to: [name]
    and [email] are not among the variables after [Execute]. *)
Lemma gather_without_extraction_adds_nothing_witness :
  ∃ n' s',
    MsgNodes.GatherNode_Execute msgCollector testState [] clk = (Ok (n', s'), (time_Now clk).2)
    ∧ var_lookup s' "name" = None
    ∧ var_lookup s' "email" = None
    ∧ CompletedNodeIDs s' = ["profile_collector"].
Proof.
  destruct (gather_without_extraction_adds_nothing msgCollector testState [] clk)
    as (n' & s' & Hrun & Hvars & Hdone); [reflexivity|].
  exists n', s'. split; [exact Hrun|]. rewrite !Hvars. split; [reflexivity|].
  split; [reflexivity | exact Hdone].
Defined.


(** The test of gather_node_test.go passes on the revision with simulated
    extraction: the required [name] and [email] are extracted, the
    optional [age] is not. *)
Example sim_collector_extracts_required :
  ∃ n' s' c',
    SimNodes.GatherNode_Execute collector testState clk = (Ok (n', s'), c')
    ∧ var_lookup s' "name" = Some (VString "Sample name")
    ∧ var_lookup s' "email" = Some (VString "Sample email")
    ∧ var_lookup s' "age" = None
    ∧ CompletedNodeIDs s' = ["profile_collector"].
Proof. eexists _, _, _. split; [vm_compute; reflexivity|]. repeat split. Qed.

(** A required property that is marked nullable is skipped by
    [getMissingProperties] and counted as missing by the revision with
    simulated extraction, which does not read [Nullable]. *)
Example nullable_property_in_both_revisions :
  MsgNodes.getMissingProperties
    (MsgNodes.NewGatherNode "n" nullableProfile 3 extractPrompt 5%Z) = []
  ∧ SimNodes.missingRequired
      (SimNodes.NewGatherNode "n" nullableProfile 3 extractPrompt 5%Z) ∅ = ["nickname"].
Proof. split; vm_compute; reflexivity. Qed.

(** With three attempts and the fallback node [F] on [A], the chain
    workflow is run in one pass and ends where it ends without retry
    settings, never at [F]. *)
Example retry_settings_change_nothing :
  (ProcessConversationUpdate "intake" "user-1" "call-1" [] (mkWorld fallbackStore clk)).1
  = (ProcessConversationUpdate "intake" "user-1" "call-1" [] (mkWorld chainStore clk)).1
  ∧ (∃ s, (ProcessConversationUpdate "intake" "user-1" "call-1" []
             (mkWorld fallbackStore clk)).1 = Ok s
          ∧ CompletedNodeIDs s = ["A"; "B"]
          ∧ CurrentNodeID s ≠ "F").
Proof.
  split; [vm_compute; reflexivity|].
  eexists. split; [vm_compute; reflexivity|]. split; [reflexivity | discriminate].
Qed.


End OnFixtures.

(** * More of the code *)

(** ** The engine, for any nodes and any store *)

Section MoreEngineFacts.

Context {N S : Type} `{!Node N} `{!WorkflowStorage N S}.

(** X1: [CreateWorkflow] refuses a workflow with an empty id, with an empty
    start node id or whose start node id is not a key of its nodes (an
    empty node map among them): it returns an error and leaves the store
    and the clock as they were. *)
Theorem create_rejects_invalid (W : Workflow N) (w : World S) :
  ID_ W = "" ∨ StartNodeID W = "" ∨ Nodes W !! StartNodeID W = None →
  ∃ msg, CreateWorkflow W w = (Err (Errorf msg), w).
Proof.
  intros Hbad. unfold CreateWorkflow.
  destruct (decide (ID_ W = "")); [by eexists|].
  destruct (decide (StartNodeID W = "")); [by eexists|].
  destruct (decide (size (Nodes W) = 0)); [by eexists|].
  destruct Hbad as [?|[?|Hnone]]; [done..|]. rewrite Hnone. by eexists.
Qed.

(** X2: for a workflow id the store does not know, [StartWorkflow] and
    [ProcessConversationUpdate] both fail with "workflow not found: <id>"
    and change nothing. *)
Theorem workflow_not_found workflowID userID callID messages (w : World S) :
  GetWorkflow (storage w) workflowID = Ok None →
  StartWorkflow workflowID userID callID w
  = (Err (Errorf ("workflow not found: " +:+ workflowID)), w)
  ∧ ProcessConversationUpdate workflowID userID callID messages w
    = (Err (Errorf ("workflow not found: " +:+ workflowID)), w).
Proof.
  intros Hnone.
  unfold StartWorkflow, ProcessConversationUpdate, bind, wrapping, storage_GetWorkflow.
  by rewrite Hnone.
Qed.

(** X3: when the store refuses the state after the current node has run,
    [ProcessConversationUpdate] returns that error wrapped in "failed to
    save workflow state"; the store is as it was before the call, so the
    progress of the node that ran is lost, and the successor is not run. *)
Theorem failed_save_keeps_store workflowID userID callID messages (w : World S)
    wf s cur cur' s1 c1 e :
  GetWorkflow (storage w) workflowID = Ok (Some wf) →
  GetWorkflowState (storage w) workflowID userID callID = Ok s →
  IsComplete s = false →
  Nodes wf !! CurrentNodeID s = Some cur →
  Execute cur (set_LastMessageAt (time_Now (clock w)).1 s) (time_Now (clock w)).2
  = (Ok (cur', s1), c1) →
  SaveWorkflowState (storage w) s1 = Err e →
  ProcessConversationUpdate workflowID userID callID messages w
  = (Err (Wrapf "failed to save workflow state" e), mkWorld (storage w) c1).
Proof.
  intros Hwf Hs Hc Hcur Hex Hsave. simpl in Hex.
  unfold ProcessConversationUpdate, bind, wrapping, storage_GetWorkflow,
    storage_GetWorkflowState, now, node_Execute, storage_SaveWorkflowState.
  rewrite Hwf, Hs, Hc. simpl. rewrite Hcur. simpl.
  rewrite Hex. simpl. by rewrite Hsave.
Qed.

(** X4: when the Say successor fails in the automatic advance, the call
    returns its error wrapped in "node execution failed", and the store
    keeps the state that was saved after the first node: the step of the
    first node is not undone. *)
Theorem failed_second_hop_keeps_first workflowID userID callID messages (w : World S)
    wf s cur cur' s1 c1 st1 nxt e c2 :
  GetWorkflow (storage w) workflowID = Ok (Some wf) →
  GetWorkflowState (storage w) workflowID userID callID = Ok s →
  IsComplete s = false →
  Nodes wf !! CurrentNodeID s = Some cur →
  Execute cur (set_LastMessageAt (time_Now (clock w)).1 s) (time_Now (clock w)).2
  = (Ok (cur', s1), c1) →
  SaveWorkflowState (storage w) s1 = Ok st1 →
  IsComplete s1 = false → CurrentNodeID s1 ≠ ID cur' →
  <[CurrentNodeID s := cur']> (Nodes wf) !! CurrentNodeID s1 = Some nxt →
  Type_ nxt = NodeTypeSay →
  Execute nxt s1 c1 = (Err e, c2) →
  ProcessConversationUpdate workflowID userID callID messages w
  = (Err (Wrapf "node execution failed" e), mkWorld st1 c2).
Proof.
  intros Hwf Hs Hc Hcur Hex Hsave Hc1 Hne Hnxt Hsay Hex2.
  rewrite (process_first_hop workflowID userID callID messages w wf s cur cur' s1 c1 st1)
    by done.
  rewrite autoAdvance_moved by done.
  change (Nodes (set_Nodes ?m _)) with m. rewrite Hnxt.
  rewrite decide_True by done. cbn [storage clock]. by rewrite Hex2.
Qed.

End MoreEngineFacts.

Section CreateStamps.

Context {N S : Type} `{!WorkflowStorage N S} `{!WorkflowWrites N S}.

(** X5: on a store that keeps workflows, [CreateWorkflow] of a valid
    workflow stores it under its id with [UpdatedAt] set to the time of the
    call and [CreatedAt] set to that time only if it was the zero time; a
    [CreatedAt] given by the caller is kept, and the clock is read once. *)
Theorem create_stamps_and_stores (W : Workflow N) (w : World S) :
  ID_ W ≠ "" → StartNodeID W ≠ "" → is_Some (Nodes W !! StartNodeID W) →
  ∃ w1,
    CreateWorkflow W w = (Ok tt, w1)
    ∧ GetWorkflow (storage w1) (ID_ W)
      = Ok (Some (mkWorkflow (ID_ W) (Name W) (WfDescription W) (Nodes W) (StartNodeID W)
                    (if IsZero (CreatedAt W) then (time_Now (clock w)).1 else CreatedAt W)
                    (time_Now (clock w)).1))
    ∧ clock w1 = (time_Now (clock w)).2.
Proof.
  intros Hid Hstart [n Hn]. unfold CreateWorkflow.
  rewrite !decide_False; [| |done|done].
  2:{ apply map_size_ne_0_lookup. eauto. }
  rewrite Hn. unfold bind, now, storage_SaveWorkflow. cbn [time_Now storage clock fst snd].
  set (W' := mkWorkflow _ _ _ _ _ _ _).
  destruct (save_workflow_ok (storage w) W') as [st1 Hsave]. rewrite Hsave.
  eexists. split; [done|]. split; [|done]. cbn [storage].
  apply (get_saved_workflow _ _ _ Hsave).
Qed.

End CreateStamps.

(** ** The earlier copy of the engine *)

Section Engine0More.

Context {N S : Type} `{!Node N} `{!WorkflowStorage0 N S}.

(** X6: the two copies of [StartWorkflow] differ on an execution that has
    already started when the store refuses the write: the copy of package
    [workflows] writes the state back and so fails with "failed to save
    initial workflow state", the copy of engine.go returns the state
    without writing. *)
Theorem start0_needs_a_writable_store workflowID userID callID (w : World S) wf s e :
  GetWorkflow0 (storage w) workflowID = Ok wf →
  GetWorkflowState0 (storage w) workflowID userID callID = Ok s →
  CurrentNodeID s ≠ "" →
  SaveWorkflowState0 (storage w) s = Err e →
  StartWorkflow0 workflowID userID callID w
  = (Err (Wrapf "failed to save initial workflow state" e), w)
  ∧ @StartWorkflow N S found_storage workflowID userID callID w = (Ok s, w).
Proof.
  intros Hwf Hs Hc Hsave. split.
  - unfold StartWorkflow0, bind, wrapping, storage_GetWorkflow0, storage_GetWorkflowState,
      storage_SaveWorkflowState.
    simpl. rewrite Hwf, Hs. rewrite decide_False by done. by rewrite Hsave.
  - unfold StartWorkflow, bind, wrapping, storage_GetWorkflow, storage_GetWorkflowState.
    simpl. rewrite Hwf, Hs. by rewrite decide_False.
Qed.

End Engine0More.

(** ** The nodes with simulated extraction *)

Section MoreSimNodes.

Context `{!JSON}.

Import SimNodes.

(** The schema entry that the extraction of [p] looks at. *)
Lemma extractMissing_exact (n : GatherNode) missing data p :
  extractMissing n missing data !! p
  = if decide (p ∈ missing) then
      Some (sampleValue p (default zeroDefinition
                             (default ∅ (Minds.Properties (GatherSchema n)) !! p)))
    else data !! p.
Proof.
  unfold extractMissing. revert data.
  induction missing as [|q missing IH]; intros data; cbn [foldl].
  - case_decide as Hin; [by apply elem_of_nil in Hin | done].
  - rewrite IH. destruct (decide (p ∈ missing)) as [Hin|Hout].
    + rewrite decide_True; [done|]. by right.
    + destruct (decide (p = q)) as [->|Hne].
      * rewrite decide_True by left. by rewrite lookup_insert_eq.
      * rewrite decide_False. { by rewrite lookup_insert_ne. }
        by intros [?|?]%elem_of_cons.
Qed.

(** What [missingRequired] lists. *)
Lemma missingRequired_iff (n : GatherNode) (data : gmap string any) p :
  p ∈ missingRequired n data
  ↔ Minds.Type' (GatherSchema n) = Minds.Object
    ∧ (∃ props, Minds.Properties (GatherSchema n) = Some props ∧ is_Some (props !! p))
    ∧ p ∈ Minds.Required (GatherSchema n)
    ∧ data !! p = None.
Proof.
  unfold missingRequired.
  destruct (Minds.Properties (GatherSchema n)) as [props|] eqn:Hprops.
  2:{ split; [by intros ?%elem_of_nil|]. by intros (_ & (? & ? & _) & _). }
  case_decide as Hobj.
  2:{ split; [by intros ?%elem_of_nil|]. by intros [? _]. }
  rewrite list_elem_of_omap. split.
  - intros ([q d] & Hin & Hq). apply elem_of_map_to_list in Hin.
    destruct (isRequired _ q) eqn:Hreq; [|done]. simpl in Hq.
    case_bool_decide as Hsome; [done|]. simpl in Hq. injection Hq as ->.
    split; [done|]. split; [eauto|]. split; [by apply isRequired_elem|].
    by apply eq_None_not_Some.
  - intros (_ & (props' & [= <-] & [d Hd]) & Hreq & Hnone).
    exists (p, d). split; [by apply elem_of_map_to_list|].
    apply isRequired_elem in Hreq. rewrite Hreq. simpl.
    rewrite bool_decide_false; [done|]. rewrite Hnone. by intros [? ?].
Qed.

Lemma missingRequired_NoDup (n : GatherNode) (data : gmap string any) :
  NoDup (missingRequired n data).
Proof.
  unfold missingRequired.
  destruct (Minds.Properties (GatherSchema n)) as [props|]; [|constructor].
  case_decide; [|constructor].
  pose proof (NoDup_fst_map_to_list props) as Hnd.
  induction (map_to_list props) as [|[q d] l IH]; simpl; [constructor|].
  inversion Hnd as [|? ? Hq Hl]; subst.
  destruct (isRequired _ q && _) eqn:Hb; simpl; [|by apply IH].
  constructor; [|by apply IH].
  intros ([q' d'] & Hin & Heq)%list_elem_of_omap.
  destruct (isRequired _ q' && _); [|done]. injection Heq as ->.
  apply Hq. apply list_elem_of_fmap. by exists (q, d').
Qed.

(** X7: the properties that the Gather node of gather_node.go counts as
    missing are, each once, the keys of the schema's properties that are
    listed as required and have no entry in the extracted data, and there
    are none unless the schema is an object with properties; whether a
    property is nullable plays no part. *)
Theorem missingRequired_spec (n : GatherNode) (data : gmap string any) :
  NoDup (missingRequired n data)
  ∧ ∀ p, p ∈ missingRequired n data
         ↔ Minds.Type' (GatherSchema n) = Minds.Object
           ∧ (∃ props, Minds.Properties (GatherSchema n) = Some props
                       ∧ is_Some (props !! p))
           ∧ p ∈ Minds.Required (GatherSchema n)
           ∧ data !! p = None.
Proof.
  split; [apply missingRequired_NoDup|]. intros p. apply missingRequired_iff.
Qed.

(** X8: a missing required property is given the sample value of its
    schema entry, both in the node's extracted data and in the variables
    of the state. *)
Theorem extraction_stores_samples (n : GatherNode) s c props p d :
  Minds.Properties (GatherSchema n) = Some props →
  props !! p = Some d →
  p ∈ missingRequired n (made (ExtractedData n)) →
  ∃ n' s',
    GatherNode_Execute n s c = (Ok (n', s'), (time_Now c).2)
    ∧ var_lookup s' p = Some (sampleValue p d)
    ∧ made (ExtractedData n') !! p = Some (sampleValue p d).
Proof.
  intros Hprops Hd Hp. rewrite GatherNode_Execute_eq. cbv zeta.
  rewrite decide_True.
  2:{ destruct (missingRequired n (made (ExtractedData n))); simpl; [|lia].
      by apply elem_of_nil in Hp. }
  eexists _, _. split; [done|]. cbn [fst snd].
  unfold var_lookup. rewrite advance_variables. simpl.
  rewrite assignAll_lookup, extractMissing_exact, decide_True by done.
  by rewrite Hprops; simpl; rewrite Hd.
Qed.

(** X9: a Gather node that has run once has nothing missing; run again,
    on any state, it copies nothing into the variables of that state. *)
Theorem second_execute_extracts_nothing (n : GatherNode) s c s2 c2 :
  ∃ n' s' s3,
    GatherNode_Execute n s c = (Ok (n', s'), (time_Now c).2)
    ∧ missingRequired n' (made (ExtractedData n')) = []
    ∧ GatherNode_Execute n' s2 c2 = (Ok (n', s3), (time_Now c2).2)
    ∧ Variables s3 = Variables s2.
Proof.
  rewrite GatherNode_Execute_eq. cbv zeta.
  set (data := made (ExtractedData n)).
  set (missing := missingRequired n data).
  set (ds := if decide (0 < length missing) then _ else _).
  eexists _, _, _. split; [done|].
  assert (missingRequired (set_ExtractedData (Some ds.1) n) ds.1 = []) as Hnone.
  { apply elem_of_nil_inv. intros p Hp.
    apply missingRequired_iff in Hp as (Hobj & Hprops & Hreq & Hnone).
    change (GatherSchema (set_ExtractedData _ n)) with (GatherSchema n) in *.
    assert (data !! p = None ∧ p ∉ missing) as [Hdata Hout].
    { unfold ds in Hnone. case_decide as Hlen; cbn [fst] in Hnone.
      - rewrite extractMissing_exact in Hnone. by case_decide.
      - split; [done|]. destruct missing; [by intros ?%elem_of_nil | simpl in Hlen; lia]. }
    apply Hout. by apply missingRequired_iff. }
  split; [done|].
  rewrite GatherNode_Execute_eq. cbv zeta.
  change (made (ExtractedData (set_ExtractedData (Some ds.1) n))) with ds.1.
  rewrite Hnone. cbn [length]. rewrite decide_False by lia. cbn [fst snd].
  split; [reflexivity|]. by rewrite advance_variables.
Qed.

(** X10: [SayNode.Execute] always succeeds, leaves the node as it is and
    changes one variable only, [lastSayMessage], which gets the message
    of the node; for the message type "exact" that is the node's
    [Message]. *)
Theorem say_sets_only_lastSayMessage (n : SayNode) s c :
  ∃ s',
    SayNode_Execute n s c = (Ok (n, s'), (time_Now c).2)
    ∧ var_lookup s' "lastSayMessage" = Some (VString (sayMessage n s))
    ∧ (∀ p, p ≠ "lastSayMessage" → var_lookup s' p = var_lookup s p)
    ∧ (MessageType n = "exact" → sayMessage n s = Message n).
Proof.
  rewrite SayNode_Execute_eq. eexists. split; [done|].
  unfold var_lookup. rewrite advance_variables. simpl. split; [|split].
  - by rewrite lookup_insert_eq.
  - intros p Hp. rewrite lookup_insert_ne by done. unfold made.
    by destruct (Variables s).
  - intros He. unfold sayMessage. by rewrite decide_True.
Qed.

End MoreSimNodes.

Lemma advance_identity b s c :
  WorkflowID (advance b s c).1 = WorkflowID s
  ∧ UserID (advance b s c).1 = UserID s
  ∧ CallID (advance b s c).1 = CallID s.
Proof. unfold advance. simpl. by case_decide. Qed.

(** ** The engine over the nodes with simulated extraction *)

Section SimInvariants.
Context `{!JSON}.

(** What one [Execute] of this package does to a state, whatever the node. *)
Lemma sim_execute_extends (n : SimNodes.node) s c n' s' c' :
  SimNodes.node_Execute n s c = (Ok (n', s'), c') →
  WorkflowID s' = WorkflowID s ∧ UserID s' = UserID s ∧ CallID s' = CallID s
  ∧ CompletedNodeIDs s' = CompletedNodeIDs s ++ [NodeID (SimNodes.base n)]
  ∧ (∀ p, is_Some (var_lookup s p) → is_Some (var_lookup s' p)).
Proof.
  intros Hex.
  assert (∃ vars, s' = (advance (SimNodes.base n) (set_Variables vars s) c).1
                  ∧ ∀ p, is_Some (var_lookup s p) →
                         is_Some (var_lookup (set_Variables vars s) p))
    as (vars & -> & Hkeep).
  { destruct n as [n|n]; unfold SimNodes.node_Execute in Hex.
    - rewrite SayNode_Execute_eq in Hex. ok_inj Hex. eexists. split; [done|].
      intros p Hp. unfold var_lookup in *. simpl.
      destruct (decide (p = "lastSayMessage")) as [->|Hne].
      + by rewrite lookup_insert_eq.
      + rewrite lookup_insert_ne by done. by destruct (Variables s).
    - rewrite GatherNode_Execute_eq in Hex. cbv zeta in Hex.
      case_decide; cbn [fst snd] in Hex; ok_inj Hex.
      + eexists. split; [done|]. intros p Hp. unfold var_lookup in *. simpl.
        rewrite assignAll_lookup. destruct (SimNodes.extractMissing _ _ _ !! p); [done|].
        by destruct (Variables s).
      + exists (Variables s). by rewrite set_Variables_same. }
  destruct (advance_identity (SimNodes.base n) (set_Variables vars s) c) as (-> & -> & ->).
  rewrite advance_completed. repeat split; try done.
  intros p Hp. unfold var_lookup. rewrite advance_variables. by apply Hkeep.
Qed.

Context {S : Type} `{!WorkflowStorage SimNodes.node S}.

(** X11: a successful [ProcessConversationUpdate] over the nodes with
    simulated extraction keeps the three ids of the state, appends at most
    two node ids to [CompletedNodeIDs] and removes no variable. *)
Theorem successful_update_only_extends workflowID userID callID messages
    (w w' : World S) s s' :
  GetWorkflowState (storage w) workflowID userID callID = Ok s →
  ProcessConversationUpdate workflowID userID callID messages w = (Ok s', w') →
  WorkflowID s' = WorkflowID s ∧ UserID s' = UserID s ∧ CallID s' = CallID s
  ∧ (∃ ids, CompletedNodeIDs s' = CompletedNodeIDs s ++ ids ∧ (length ids ≤ 2)%nat)
  ∧ (∀ p, is_Some (var_lookup s p) → is_Some (var_lookup s' p)).
Proof.
  intros Hs Hrun.
  unfold ProcessConversationUpdate, bind, wrapping, storage_GetWorkflow,
    storage_GetWorkflowState in Hrun.
  destruct (GetWorkflow (storage w) workflowID) as [[wf|]|e]; [|done..].
  rewrite Hs in Hrun. destruct (IsComplete s) eqn:Hc.
  { injection Hrun as <- _. repeat split; try done. exists []. split; [by rewrite app_nil_r | simpl; lia]. }
  unfold now in Hrun. cbn [time_Now storage clock] in Hrun.
  set (s0 := set_LastMessageAt (clock w 0) s) in Hrun.
  destruct (Nodes wf !! CurrentNodeID s0) as [cur|]; [|done].
  unfold node_Execute in Hrun at 1. cbn [storage clock] in Hrun.
  change (Execute cur s0 ?c) with (SimNodes.node_Execute cur s0 c) in Hrun.
  destruct (SimNodes.node_Execute cur s0 _) as [[[cur' s1]|e] c1] eqn:Hex1; [|done].
  apply sim_execute_extends in Hex1 as (Hw1 & Hu1 & Hc1 & Hd1 & Hv1).
  unfold storage_SaveWorkflowState in Hrun at 1. cbn [storage clock] in Hrun.
  destruct (SaveWorkflowState (storage w) s1) as [st1|e]; [|done].
  assert (s' = s1 ∨ ∃ nx nx' c c2, SimNodes.node_Execute nx s1 c = (Ok (nx', s'), c2))
    as [->|(nx & nx' & c & c2 & Hex2)].
  { unfold autoAdvance in Hrun.
    destruct (negb (IsComplete s1) && _); [|left; by injection Hrun].
    destruct (_ !! CurrentNodeID s1) as [nx|]; [|left; by injection Hrun].
    case_decide; [|left; by injection Hrun].
    unfold bind, wrapping, node_Execute, storage_SaveWorkflowState in Hrun.
    cbn [storage clock] in Hrun.
    change (Execute nx s1 ?c) with (SimNodes.node_Execute nx s1 c) in Hrun.
    destruct (SimNodes.node_Execute nx s1 c1) as [[[nx' s2]|e] c2] eqn:Hex2; [|done].
    cbn [storage clock] in Hrun.
    destruct (SaveWorkflowState st1 s2); [|done].
    injection Hrun as <- _. right. eauto. }
  - rewrite Hw1, Hu1, Hc1, Hd1. split; [done|]. split; [done|]. split; [done|]. split.
    + eexists. split; [done|]. simpl. lia.
    + intros p Hp. apply Hv1. unfold s0, var_lookup in *. by simpl.
  - apply sim_execute_extends in Hex2 as (Hw2 & Hu2 & Hc2 & Hd2 & Hv2).
    rewrite Hw2, Hu2, Hc2, Hd2, Hw1, Hu1, Hc1, Hd1.
    split; [done|]. split; [done|]. split; [done|]. split.
    + eexists. split; [by rewrite <- app_assoc|]. simpl. lia.
    + intros p Hp. apply Hv2, Hv1. unfold s0, var_lookup in *. by simpl.
Qed.

End SimInvariants.

Section MoreSimEngine.
Context `{!JSON} {S : Type}.
Context `{!WorkflowStorage SimNodes.node S} `{!StateWrites SimNodes.node S}.

(** X12: on a store that takes state writes, an update for an unfinished
    execution that stands at a node without successor succeeds, marks the
    state complete, leaves the current node id where it was and appends
    the id of the node to [CompletedNodeIDs]. *)
Theorem terminal_node_completes workflowID userID callID messages (w : World S) wf s cur :
  GetWorkflow (storage w) workflowID = Ok (Some wf) →
  GetWorkflowState (storage w) workflowID userID callID = Ok s →
  IsComplete s = false →
  Nodes wf !! CurrentNodeID s = Some cur →
  NextNodeID (SimNodes.base cur) = "" →
  ∃ s' w',
    ProcessConversationUpdate workflowID userID callID messages w = (Ok s', w')
    ∧ IsComplete s' = true
    ∧ CurrentNodeID s' = CurrentNodeID s
    ∧ CompletedNodeIDs s' = CompletedNodeIDs s ++ [NodeID (SimNodes.base cur)].
Proof.
  intros Hwf Hs Hc Hcur Hlast.
  destruct (sim_process workflowID userID callID messages w wf s cur Hwf Hs Hc Hcur)
    as (vars1 & w1 & s1 & Hs1 & Hstay & _).
  destruct (advance_terminal (SimNodes.base cur)
              (set_Variables vars1 (set_LastMessageAt (time_Now (clock w)).1 s))
              (time_Now (clock w)).2 Hlast) as [Hcur1 Hc1].
  rewrite <- Hs1 in Hcur1, Hc1.
  exists s1, w1. split; [by apply Hstay; left|]. split; [done|]. split; [done|].
  by rewrite Hs1, advance_completed.
Qed.

(** X13: a successor id that is not a node of the workflow goes unnoticed
    when the node runs: the update succeeds and leaves the state, not
    complete, at the missing id.  The next update for that state fails
    with [ErrNodeNotFound] of that id and leaves the store alone. *)
Theorem dangling_successor workflowID userID callID messages (w : World S) wf s cur :
  GetWorkflow (storage w) workflowID = Ok (Some wf) →
  GetWorkflowState (storage w) workflowID userID callID = Ok s →
  IsComplete s = false →
  Nodes wf !! CurrentNodeID s = Some cur →
  NextNodeID (SimNodes.base cur) ≠ "" →
  NextNodeID (SimNodes.base cur) ≠ NodeID (SimNodes.base cur) →
  Nodes wf !! NextNodeID (SimNodes.base cur) = None →
  ∃ s' w',
    ProcessConversationUpdate workflowID userID callID messages w = (Ok s', w')
    ∧ CurrentNodeID s' = NextNodeID (SimNodes.base cur)
    ∧ IsComplete s' = false
    ∧ CompletedNodeIDs s' = CompletedNodeIDs s ++ [NodeID (SimNodes.base cur)]
    ∧ ∀ w2 : World S,
        GetWorkflow (storage w2) workflowID = Ok (Some wf) →
        GetWorkflowState (storage w2) workflowID userID callID = Ok s' →
        ∃ w3,
          ProcessConversationUpdate workflowID userID callID messages w2
          = (Err (ErrNodeNotFound (NextNodeID (SimNodes.base cur))), w3)
          ∧ storage w3 = storage w2.
Proof.
  intros Hwf Hs Hc Hcur Hnext Hnew Hnone.
  destruct (sim_execute_shape cur (set_LastMessageAt (time_Now (clock w)).1 s)
              (time_Now (clock w)).2) as (cur' & vars1 & Hex & Hbase).
  set (s1 := (advance _ _ _).1) in Hex.
  destruct (save_state_ok (storage w) s1) as [st1 Hsave].
  pose proof (process_first_hop workflowID userID callID messages w wf s cur cur' s1 _ st1
                Hwf Hs Hc Hcur Hex Hsave) as Hrun.
  change (ID cur') with (NodeID (SimNodes.base cur')) in Hrun. rewrite Hbase in Hrun.
  destruct (advance_next (SimNodes.base cur)
              (set_Variables vars1 (set_LastMessageAt (time_Now (clock w)).1 s))
              (time_Now (clock w)).2 Hnext) as [Hcur1 Hc1].
  fold s1 in Hcur1, Hc1. cbn [IsComplete set_Variables set_LastMessageAt] in Hc1.
  rewrite Hc in Hc1.
  assert (CurrentNodeID s ≠ CurrentNodeID s1) as Hkey.
  { rewrite Hcur1. intros He. rewrite He in Hcur. congruence. }
  rewrite autoAdvance_moved in Hrun by (done || by rewrite Hcur1).
  change (Nodes (set_Nodes ?m _)) with m in Hrun.
  rewrite lookup_insert_ne, Hcur1, Hnone in Hrun by done.
  eexists s1, _. split; [exact Hrun|]. split; [done|]. split; [done|].
  split; [by unfold s1; rewrite advance_completed|].
  intros w2 Hwf2 Hs2.
  unfold ProcessConversationUpdate, bind, wrapping, storage_GetWorkflow,
    storage_GetWorkflowState, now.
  rewrite Hwf2, Hs2, Hc1. cbn [time_Now storage clock CurrentNodeID set_LastMessageAt].
  rewrite Hcur1, Hnone. eauto.
Qed.

End MoreSimEngine.

(** ** The Gather node that takes the messages *)

Lemma has_key_made (m : option (gmap string any)) k : has_key (Some (made m)) k = has_key m k.
Proof. destruct m; simpl; [done|]. rewrite bool_decide_false; [done|]. rewrite lookup_empty. by intros [? ?]. Qed.

Lemma getMissingProperties_made (n : MsgNodes.GatherNode) :
  MsgNodes.getMissingProperties
    (MsgNodes.set_ExtractedData (Some (made (MsgNodes.ExtractedData n))) n)
  = MsgNodes.getMissingProperties n.
Proof.
  unfold MsgNodes.getMissingProperties.
  change (MsgNodes.GatherSchema (MsgNodes.set_ExtractedData _ n))
    with (MsgNodes.GatherSchema n).
  change (MsgNodes.ExtractedData (MsgNodes.set_ExtractedData ?x n)) with x.
  destruct (Minds.Properties (MsgNodes.GatherSchema n)); [|done].
  case_decide; [|done]. apply list_omap_ext, Forall2_same_length_lookup_2; [done|].
  intros i [q d] [q' d'] H1 H2. rewrite H1 in H2. injection H2 as <- <-.
  by rewrite has_key_made.
Qed.

(** X14: [getMissingProperties] lists, each once, the keys of the
    schema's properties that are required, not nullable and without an
    entry in [ExtractedData]; it lists nothing unless the schema is an
    object with properties. *)
Theorem getMissingProperties_spec (n : MsgNodes.GatherNode) :
  NoDup (MsgNodes.getMissingProperties n)
  ∧ ∀ p, p ∈ MsgNodes.getMissingProperties n
         ↔ Minds.Type' (MsgNodes.GatherSchema n) = Minds.Object
           ∧ (∃ props d, Minds.Properties (MsgNodes.GatherSchema n) = Some props
                         ∧ props !! p = Some d ∧ Minds.Nullable d = false)
           ∧ p ∈ Minds.Required (MsgNodes.GatherSchema n)
           ∧ has_key (MsgNodes.ExtractedData n) p = false.
Proof.
  unfold MsgNodes.getMissingProperties.
  destruct (Minds.Properties (MsgNodes.GatherSchema n)) as [props|] eqn:Hprops.
  2:{ split; [constructor|]. intros p. split; [by intros ?%elem_of_nil|].
      by intros (_ & (? & ? & ? & _) & _). }
  case_decide as Hobj.
  2:{ split; [constructor|]. intros p. split; [by intros ?%elem_of_nil|]. by intros [? _]. }
  split.
  - pose proof (NoDup_fst_map_to_list props) as Hnd.
    induction (map_to_list props) as [|[q d] l IH]; simpl; [constructor|].
    inversion Hnd as [|? ? Hq Hl]; subst.
    destruct (negb (isRequired _ q) || Minds.Nullable d); simpl; [by apply IH|].
    destruct (has_key _ q); simpl; [by apply IH|].
    constructor; [|by apply IH].
    intros ([q' d'] & Hin & Heq)%list_elem_of_omap.
    destruct (negb (isRequired _ q') || Minds.Nullable d'); [done|].
    destruct (has_key _ q'); [done|]. injection Heq as ->.
    apply Hq. apply list_elem_of_fmap. by exists (q, d').
  - intros p. rewrite list_elem_of_omap. split.
    + intros ([q d] & Hin & Hq). apply elem_of_map_to_list in Hin.
      destruct (isRequired _ q) eqn:Hreq; [|done].
      destruct (Minds.Nullable d) eqn:Hnull; [done|]. simpl in Hq.
      destruct (has_key _ q) eqn:Hkey; [done|]. injection Hq as ->.
      split; [done|]. split; [eauto|]. split; [by apply isRequired_elem|done].
    + intros (_ & (props' & d & [= <-] & Hd & Hnull) & Hreq & Hkey).
      exists (p, d). split; [by apply elem_of_map_to_list|].
      apply isRequired_elem in Hreq. by rewrite Hreq, Hnull, Hkey.
Qed.

(** X15: the [Execute] of the Gather node that takes the messages always
    succeeds; it copies [ExtractedData] over the variables of the state
    when some property is missing and leaves the variables alone when none
    is, so data put into a node that misses nothing never reaches the
    state. *)
Theorem gather_copies_only_while_missing (n : MsgNodes.GatherNode) s messages c :
  ∃ n' s',
    MsgNodes.GatherNode_Execute n s messages c = (Ok (n', s'), (time_Now c).2)
    ∧ ∀ k, var_lookup s' k
           = if decide (MsgNodes.getMissingProperties n = []) then var_lookup s k
             else match made (MsgNodes.ExtractedData n) !! k with
                  | Some v => Some v
                  | None => var_lookup s k
                  end.
Proof.
  rewrite Msg_GatherNode_Execute_eq. cbv zeta. rewrite getMissingProperties_made.
  eexists _, _. split; [done|]. intros k.
  unfold var_lookup. rewrite advance_variables.
  destruct (MsgNodes.getMissingProperties n) as [|p l]; cbn [length].
  - rewrite (decide_False (P := (0 < 0))) by lia. by rewrite decide_True.
  - rewrite (decide_True (P := (0 < S (length l)))) by lia.
    rewrite decide_False by done. cbn [Variables set_Variables].
    rewrite assignAll_lookup. by destruct (Variables s).
Qed.

(** ** The Gather node of package [workflows] *)

Section VarNodesFacts.
Import VarNodes.

Lemma sampleVariable_own (v : GatherVariable) data :
  VarDataType v ∈ [DataTypeString; DataTypeNumber; DataTypeBoolean; DataTypeEnum] →
  is_Some (sampleVariable v data !! VarName v).
Proof.
  intros Hty. unfold sampleVariable.
  repeat case_decide; try by rewrite lookup_insert_eq.
  - destruct (EnumValues v); by rewrite lookup_insert_eq.
  - exfalso. repeat (apply elem_of_cons in Hty as [?|Hty]; [done|]).
    by apply elem_of_nil in Hty.
Qed.

Lemma sampleVariable_other (v : GatherVariable) data p :
  VarName v ≠ p
  ∨ VarDataType v ∉ [DataTypeString; DataTypeNumber; DataTypeBoolean; DataTypeEnum] →
  sampleVariable v data !! p = data !! p.
Proof.
  intros Hor. unfold sampleVariable.
  destruct Hor as [Hne|Hty].
  - repeat case_decide; try by rewrite lookup_insert_ne.
    + destruct (EnumValues v); by rewrite lookup_insert_ne.
    + done.
  - repeat case_decide; try done; exfalso; apply Hty;
      rewrite !elem_of_cons; tauto.
Qed.

Lemma sampleVariable_keeps (v : GatherVariable) data p :
  is_Some (data !! p) → is_Some (sampleVariable v data !! p).
Proof.
  intros Hp. destruct (decide (VarName v = p)) as [<-|Hne].
  - unfold sampleVariable. repeat case_decide; try by rewrite lookup_insert_eq.
    + destruct (EnumValues v); by rewrite lookup_insert_eq.
    + done.
  - rewrite sampleVariable_other; [done|by left].
Qed.

Lemma sampled_some (l : list GatherVariable) data p :
  (∃ v, v ∈ l ∧ VarName v = p
        ∧ VarDataType v ∈ [DataTypeString; DataTypeNumber; DataTypeBoolean; DataTypeEnum])
  ∨ is_Some (data !! p) →
  is_Some (foldl (λ data variable, sampleVariable variable data) data l !! p).
Proof.
  revert data. induction l as [|v l IH]; intros data; cbn [foldl].
  - intros [(v & Hin & _)|Hp]; [by apply elem_of_nil in Hin | done].
  - intros [(v' & Hin & Hname & Hty)|Hp]; apply IH.
    + apply elem_of_cons in Hin as [->|Hin]; [right|left; eauto].
      rewrite <- Hname. by apply sampleVariable_own.
    + right. by apply sampleVariable_keeps.
Qed.

Lemma sampled_none (l : list GatherVariable) data p :
  (∀ v, v ∈ l → VarName v = p →
        VarDataType v ∉ [DataTypeString; DataTypeNumber; DataTypeBoolean; DataTypeEnum]) →
  foldl (λ data variable, sampleVariable variable data) data l !! p = data !! p.
Proof.
  revert data. induction l as [|v l IH]; intros data Hall; cbn [foldl]; [done|].
  rewrite IH.
  - apply sampleVariable_other. destruct (decide (VarName v = p)); [right|by left].
    apply Hall; [by left|done].
  - intros v' Hin. apply Hall. by right.
Qed.

(** X16: in package [workflows], a variable of the node that has no entry
    in [ExtractedData] and whose data type is string, number, boolean or
    enum has one after [Execute], in the node and in the variables of the
    state, whether or not the variable is required. *)
Theorem supported_variables_are_extracted (n : GatherNode) s c v :
  v ∈ GatherVariables n →
  made (ExtractedData n) !! VarName v = None →
  VarDataType v ∈ [DataTypeString; DataTypeNumber; DataTypeBoolean; DataTypeEnum] →
  ∃ n' s',
    GatherNode_Execute n s c = (Ok (n', s'), (time_Now c).2)
    ∧ is_Some (made (ExtractedData n') !! VarName v)
    ∧ is_Some (var_lookup s' (VarName v)).
Proof.
  intros Hin Hnone Hty. rewrite Var_GatherNode_Execute_eq. cbv zeta.
  set (data := made (ExtractedData n)) in *.
  set (missing := filter _ _).
  assert (v ∈ missing) as Hmiss.
  { apply list_elem_of_filter. split; [|done]. rewrite Hnone. by intros [? ?]. }
  rewrite decide_True.
  2:{ destruct missing; [by apply elem_of_nil in Hmiss | simpl; lia]. }
  cbn [fst snd]. eexists _, _. split; [done|].
  assert (is_Some (foldl (λ data variable, sampleVariable variable data) data missing
                   !! VarName v)) as [x Hx].
  { apply sampled_some. left. eauto. }
  split.
  - cbn [ExtractedData set_ExtractedData made default]. by exists x.
  - unfold var_lookup. rewrite advance_variables. cbn [Variables set_Variables].
    by rewrite assignAll_lookup, Hx.
Qed.

(** X17: in package [workflows], a name whose variables all have a data
    type outside string, number, boolean and enum gets no value: after
    [Execute], which succeeds and moves on all the same, the name is still
    absent from [ExtractedData], and its entry in the variables of the
    state is what it was. *)
Theorem unsupported_variable_is_never_stored (n : GatherNode) s c p :
  (∀ v, v ∈ GatherVariables n → VarName v = p →
        VarDataType v ∉ [DataTypeString; DataTypeNumber; DataTypeBoolean; DataTypeEnum]) →
  made (ExtractedData n) !! p = None →
  ∃ n' s',
    GatherNode_Execute n s c = (Ok (n', s'), (time_Now c).2)
    ∧ made (ExtractedData n') !! p = None
    ∧ var_lookup s' p = var_lookup s p.
Proof.
  intros Hall Hnone. rewrite Var_GatherNode_Execute_eq. cbv zeta.
  set (data := made (ExtractedData n)) in *.
  set (missing := filter _ _).
  assert (foldl (λ data variable, sampleVariable variable data) data missing !! p = None)
    as Hx.
  { rewrite sampled_none; [done|]. intros v [_ Hin]%list_elem_of_filter. by apply Hall. }
  eexists _, _. split; [done|]. case_decide; cbn [fst snd].
  - split; [exact Hx|]. unfold var_lookup. rewrite advance_variables.
    cbn [Variables set_Variables]. rewrite assignAll_lookup, Hx. by destruct (Variables s).
  - split; [done|]. unfold var_lookup. by rewrite advance_variables.
Qed.

End VarNodesFacts.

(** ** The message of the current node *)

Lemma gatherPrompt_starts (missing : list VarNodes.GatherVariable) :
  ∃ rest, WfNodes.gatherPrompt missing = "I" +:+ rest.
Proof.
  unfold WfNodes.gatherPrompt.
  change ("I need to gather some information from you:" +:+ LF)
    with ("I" +:+ (" need to gather some information from you:" +:+ LF)).
  generalize (" need to gather some information from you:" +:+ LF).
  induction missing as [|v l IH]; intros acc; cbn [foldl]; [eauto|].
  change ("I" +:+ acc +:+ ?x) with ("I" +:+ (acc +:+ x)).
  apply IH.
Qed.

Section MessageFacts.
Context `{!JSON} {S : Type} `{!WorkflowStorage WfNodes.node S}.

(** X18: at a Gather node, [GetCurrentNodeMessage] changes nothing and
    returns a message that is not empty; the message is "Thank you for
    providing that information." exactly when every variable of the node
    has an entry in the variables of the state, whatever the node has in
    [ExtractedData]. *)
Theorem gather_acknowledges_when_state_has_all workflowID userID callID
    (w : World S) wf s (n : VarNodes.GatherNode) :
  GetWorkflow (storage w) workflowID = Ok (Some wf) →
  GetWorkflowState (storage w) workflowID userID callID = Ok s →
  IsComplete s = false →
  Nodes wf !! CurrentNodeID s = Some (WfNodes.Gather n) →
  ∃ message,
    WfNodes.GetCurrentNodeMessage workflowID userID callID w = (Ok message, w)
    ∧ message ≠ ""
    ∧ (message = "Thank you for providing that information."
       ↔ ∀ v, v ∈ VarNodes.GatherVariables n →
              is_Some (var_lookup s (VarNodes.VarName v))).
Proof.
  intros Hwf Hs Hc Hcur.
  unfold WfNodes.GetCurrentNodeMessage, bind, wrapping, storage_GetWorkflow,
    storage_GetWorkflowState, ret.
  rewrite Hwf, Hs, Hc, Hcur. eexists. split; [done|].
  unfold WfNodes.nodeMessage. cbv zeta.
  destruct (WfNodes.missingVariables n s) as [|v l] eqn:Hmiss.
  - rewrite decide_False by (simpl; lia). split; [done|]. split; [|done].
    intros _ v Hin. destruct (decide (is_Some (var_lookup s (VarNodes.VarName v))))
      as [|Hno]; [done|].
    assert (v ∈ WfNodes.missingVariables n s) as Hv
      by (apply list_elem_of_filter; done).
    rewrite Hmiss in Hv. by apply elem_of_nil in Hv.
  - rewrite decide_True by (simpl; lia).
    destruct (gatherPrompt_starts (v :: l)) as [rest ->].
    split; [done|]. split; [done|].
    intros Hall. exfalso.
    assert (v ∈ WfNodes.missingVariables n s) as Hv by (rewrite Hmiss; left).
    apply list_elem_of_filter in Hv as [Hno Hin]. by apply Hno, Hall.
Qed.


Context `{!StateReads WfNodes.node S}.


End MessageFacts.

(** ** Delivery to the call *)

Section VAPIFacts.
Context `{!ControlChannel} {S : Type}.
Context (engine_ProcessConversationUpdate :
           string → string → string → list vapi_Message → M S WorkflowState).
Context (engine_GetCurrentNodeMessage : string → string → string → M S string).

Lemma sendVAPIMessage_requests controlURL message sent :
  (sendVAPIMessage controlURL message sent).2 = sent
  ∨ ∃ body, marshalAddMessage message = Ok body
            ∧ (sendVAPIMessage controlURL message sent).2 = sent ++ [(controlURL, body)].
Proof.
  unfold sendVAPIMessage. destruct (marshalAddMessage message) as [body|e]; [|by left].
  destruct (http_POST controlURL body) as [e|e|e|status answer]; [by left|right; eauto..|].
  right. exists body. split; [done|]. by case_decide.
Qed.

Lemma sendVAPIMessage_delivered controlURL message sent sent' :
  sendVAPIMessage controlURL message sent = (None, sent') →
  ∃ body answer, marshalAddMessage message = Ok body
                 ∧ http_POST controlURL body = Response StatusOK answer
                 ∧ sent' = sent ++ [(controlURL, body)].
Proof.
  unfold sendVAPIMessage. destruct (marshalAddMessage message) as [body|e]; [|done].
  destruct (http_POST controlURL body) as [e|e|e|status answer] eqn:Hpost; [done..|].
  case_decide as Hstatus; [done|]. intros [= <-].
  subst status. eauto.
Qed.

(** X20: [ProcessVAPIUpdate] hands at most one request to the HTTP client,
    and only when the engine processed the update, the last message of the
    conversation has the role "user", the engine gave a message that is not
    empty and that message could be marshalled; the request goes to the
    control URL with the marshalled message as its body. *)
Theorem update_posts_at_most_once workflowID userID callID messages controlURL
    (w : World S) sent :
  let '(_, w', sent') :=
    ProcessVAPIUpdate engine_ProcessConversationUpdate engine_GetCurrentNodeMessage
      workflowID userID callID messages controlURL w sent in
  sent' = sent
  ∨ ∃ s w1 message body,
      engine_ProcessConversationUpdate workflowID userID callID messages w = (Ok s, w1)
      ∧ (∃ m, last messages = Some m ∧ Role m = "user")
      ∧ engine_GetCurrentNodeMessage workflowID userID callID w1 = (Ok message, w')
      ∧ message ≠ ""
      ∧ marshalAddMessage message = Ok body
      ∧ sent' = sent ++ [(controlURL, body)].
Proof.
  unfold ProcessVAPIUpdate.
  destruct (engine_ProcessConversationUpdate _ _ _ _ w) as [[s|e] w1] eqn:Hrun; [|by left].
  unfold lastFromUser. destruct (last messages) as [m|] eqn:Hlast; [|by left].
  case_bool_decide as Hrole; [|by left].
  destruct (engine_GetCurrentNodeMessage _ _ _ w1) as [[message|e] w2] eqn:Hmsg; [|by left].
  case_decide as Hne; [|by left].
  destruct (sendVAPIMessage_requests controlURL message sent) as [Hsame|(body & Hbody & Hsent)];
    destruct (sendVAPIMessage controlURL message sent) as [err sent']; cbn [snd] in *;
    [by left|].
  right. exists s, w1, message, body. eauto 10.
Qed.

(** X21: when [ProcessVAPIUpdate] returns no error, the engine processed
    the update, and either the last message is not from the user and
    nothing was posted, or the message of the current node was empty and
    nothing was posted, or the one request that was posted was answered
    with status 200. *)
Theorem success_means_delivered workflowID userID callID messages controlURL
    (w w' : World S) sent sent' :
  ProcessVAPIUpdate engine_ProcessConversationUpdate engine_GetCurrentNodeMessage
    workflowID userID callID messages controlURL w sent = (None, w', sent') →
  ∃ s w1,
    engine_ProcessConversationUpdate workflowID userID callID messages w = (Ok s, w1)
    ∧ (lastFromUser messages = false ∧ w' = w1 ∧ sent' = sent
       ∨ lastFromUser messages = true
         ∧ ∃ message,
             engine_GetCurrentNodeMessage workflowID userID callID w1 = (Ok message, w')
             ∧ (message = "" ∧ sent' = sent
                ∨ message ≠ ""
                  ∧ ∃ body answer,
                      marshalAddMessage message = Ok body
                      ∧ http_POST controlURL body = Response StatusOK answer
                      ∧ sent' = sent ++ [(controlURL, body)])).
Proof.
  unfold ProcessVAPIUpdate.
  destruct (engine_ProcessConversationUpdate _ _ _ _ w) as [[s|e] w1] eqn:Hrun; [|done].
  intros Hres. exists s, w1. split; [done|].
  destruct (lastFromUser messages); [right; split; [done|] | left; by injection Hres as <- <-].
  destruct (engine_GetCurrentNodeMessage _ _ _ w1) as [[message|e] w2] eqn:Hmsg; [|done].
  case_decide as Hne.
  - destruct (sendVAPIMessage controlURL message sent) as [err sent2] eqn:Hsend.
    injection Hres as -> <- <-. exists message. split; [done|]. right. split; [done|].
    by apply sendVAPIMessage_delivered.
  - injection Hres as <- <-. exists message. split; [done|]. left.
    by split.
Qed.

End VAPIFacts.

(** ** Nodes as maps *)

(** X22: [FromMap] of the map that [ToMap] gives for a Say node rebuilds
    that node, whatever the receiving node held before. *)
Theorem SayNode_round_trip (n m : SimNodes.SayNode) :
  SayNode_FromMap (SayNode_ToMap n) m = n.
Proof.
  destruct n as [[nid kind next created updated] message prompt mtype].
  destruct m as [[nid0 kind0 next0 created0 updated0] message' prompt' mtype'].
  reflexivity.
Qed.

Lemma GatherVariable_round_trip (v : VarNodes.GatherVariable) :
  GatherVariable_FromMap (GatherVariable_ToMap v) = v.
Proof. by destruct v. Qed.

(** X23: [FromMap] of the map that [ToMap] gives for a Gather node of
    package [workflows] rebuilds that node, variables and extracted data
    included, whatever the receiving node held before. *)
Theorem GatherNode_round_trip (n m : VarNodes.GatherNode) :
  GatherNode_FromMap (GatherNode_ToMap n) m = n.
Proof.
  destruct n as [[nid kind next created updated] vars attempts prompt fallback follow data].
  destruct m as [[nid0 kind0 next0 created0 updated0] vars' attempts' prompt' fallback' follow' data'].
  unfold GatherNode_FromMap.
  change (GatherNode_ToMap _ !! "variables") with (Some (DMaps (GatherVariable_ToMap <$> vars))).
  cbn [as_maps].
  rewrite <- list_fmap_compose.
  rewrite (list_fmap_ext _ id vars) by (intros; apply GatherVariable_round_trip).
  rewrite list_fmap_id. reflexivity.
Qed.

(** * The further theorems at work on the fixtures *)

Section OnMoreFixtures.

Import Fixtures MoreFixtures.

#[local] Existing Instance marshal.

(** A workflow that starts at [Z] and has no node [Z]. *)
Lemma create_rejects_invalid_witness :
  ∃ msg, CreateWorkflow noStartWf (mkWorld emptyStore clk)
         = (Err (Errorf msg), mkWorld emptyStore clk).
Proof.
  apply (create_rejects_invalid noStartWf (mkWorld emptyStore clk)).
  right. right. vm_compute. reflexivity.
Defined.

(** The chain workflow, whose [CreatedAt] is the zero time, created at
    time 1000. *)
Lemma create_stamps_and_stores_witness :
  ∃ w1,
    CreateWorkflow chainWf (mkWorld emptyStore clk) = (Ok tt, w1)
    ∧ GetWorkflow (storage w1) "intake"
      = Ok (Some (mkWorkflow "intake" "Intake" "Collects a profile" (Nodes chainWf) "A"
                             1000%Z 1000%Z))
    ∧ clock w1 = (time_Now clk).2.
Proof.
  apply (create_stamps_and_stores chainWf (mkWorld emptyStore clk));
    [discriminate | discriminate | by eexists].
Defined.

(** An empty store knows no workflow. *)
Lemma workflow_not_found_witness :
  StartWorkflow "intake" "user-1" "call-1" (mkWorld emptyStore clk)
  = (Err (Errorf "workflow not found: intake"), mkWorld emptyStore clk)
  ∧ ProcessConversationUpdate "intake" "user-1" "call-1" [] (mkWorld emptyStore clk)
    = (Err (Errorf "workflow not found: intake"), mkWorld emptyStore clk).
Proof.
  apply (workflow_not_found "intake" "user-1" "call-1" [] (mkWorld emptyStore clk)).
  vm_compute. reflexivity.
Defined.

(** The chain workflow on a store that refuses writes: [A] runs, nothing
    is kept. *)
Lemma failed_save_keeps_store_witness :
  @ProcessConversationUpdate _ _ _ found_storage "intake" "user-1" "call-1" []
    (mkWorld (mkFrozen chainStore) clk)
  = (Err (Wrapf "failed to save workflow state" (Errorf "read-only store")),
     mkWorld (mkFrozen chainStore) (time_Now (time_Now clk).2).2).
Proof.
  eapply (@failed_save_keeps_store _ _ _ found_storage "intake" "user-1" "call-1" []
            (mkWorld (mkFrozen chainStore) clk) chainWf (atNode "A")
            (SimNodes.Gather nodeA));
    vm_compute; reflexivity.
Defined.

(** [A] runs and is saved, the Say node after it fails: the store has the
    state after [A]. *)
Lemma failed_second_hop_keeps_first_witness :
  @ProcessConversationUpdate _ _ (MsgNodes.Node_node []) _
    "intake" "user-1" "call-1" [] (mkWorld brokenStore clk)
  = (Err (Wrapf "node execution failed" (Errorf "invalid message type: bogus")),
     mkWorld brokenStoreAfterA (time_Now (time_Now clk).2).2).
Proof.
  apply (@failed_second_hop_keeps_first _ _ (MsgNodes.Node_node []) _
           "intake" "user-1" "call-1" [] (mkWorld brokenStore clk) brokenWf
           (atNode "A") (MsgNodes.Gather msgNodeA) (MsgNodes.Gather msgNodeA) afterA
           (time_Now (time_Now clk).2).2 brokenStoreAfterA (MsgNodes.Say bogusMsgSay));
    first [ vm_compute; reflexivity | vm_compute; discriminate ].
Defined.

(** The chain workflow at its last node. *)
Lemma terminal_node_completes_witness :
  ∃ s' w',
    ProcessConversationUpdate "intake" "user-1" "call-1" [] (mkWorld lastStore clk)
    = (Ok s', w')
    ∧ IsComplete s' = true
    ∧ CurrentNodeID s' = "B"
    ∧ CompletedNodeIDs s' = ["B"].
Proof.
  apply (terminal_node_completes "intake" "user-1" "call-1" [] (mkWorld lastStore clk)
           chainWf (atNode "B") (SimNodes.Say nodeB));
    vm_compute; reflexivity.
Defined.

(** [A] names [B] and the workflow has no [B]. *)
Lemma dangling_successor_witness :
  ∃ s' w',
    ProcessConversationUpdate "intake" "user-1" "call-1" [] (mkWorld danglingStore clk)
    = (Ok s', w')
    ∧ CurrentNodeID s' = "B"
    ∧ IsComplete s' = false
    ∧ CompletedNodeIDs s' = ["A"]
    ∧ ∀ w2 : World (MemStore SimNodes.node),
        GetWorkflow (storage w2) "intake" = Ok (Some danglingWf) →
        GetWorkflowState (storage w2) "intake" "user-1" "call-1" = Ok s' →
        ∃ w3,
          ProcessConversationUpdate "intake" "user-1" "call-1" [] w2
          = (Err (ErrNodeNotFound "B"), w3)
          ∧ storage w3 = storage w2.
Proof.
  apply (dangling_successor "intake" "user-1" "call-1" [] (mkWorld danglingStore clk)
           danglingWf (atNode "A") (SimNodes.Gather nodeA));
    first [ vm_compute; reflexivity | discriminate ].
Defined.

(** The chain workflow from [A]. *)
Lemma successful_update_only_extends_witness :
  WorkflowID afterChain = WorkflowID (atNode "A")
  ∧ UserID afterChain = UserID (atNode "A")
  ∧ CallID afterChain = CallID (atNode "A")
  ∧ (∃ ids, CompletedNodeIDs afterChain = CompletedNodeIDs (atNode "A") ++ ids
            ∧ (length ids ≤ 2)%nat)
  ∧ (∀ p, is_Some (var_lookup (atNode "A") p) → is_Some (var_lookup afterChain p)).
Proof.
  apply (successful_update_only_extends "intake" "user-1" "call-1" []
           (mkWorld chainStore clk) chainRun.2 (atNode "A") afterChain);
    vm_compute; reflexivity.
Defined.

(** The node of gather_node_test.go: [name] gets its sample value. *)
Lemma extraction_stores_samples_witness :
  ∃ n' s',
    SimNodes.GatherNode_Execute collector testState clk = (Ok (n', s'), (time_Now clk).2)
    ∧ var_lookup s' "name" = Some (VString "Sample name")
    ∧ made (SimNodes.ExtractedData n') !! "name" = Some (VString "Sample name").
Proof.
  apply (extraction_stores_samples collector testState clk
           (default ∅ (Minds.Properties userProfile)) "name"
           (Minds.mkDefinition Minds.String "User's full name" [] None [] false));
    [reflexivity | vm_compute; reflexivity |].
  apply missingRequired_iff. split; [reflexivity|]. split; [by eexists|].
  split; [by left | reflexivity].
Defined.

(** The optional [name] is extracted. *)
Lemma supported_variables_are_extracted_witness :
  ∃ n' s',
    VarNodes.GatherNode_Execute varCollector (atNode "G") clk
    = (Ok (n', s'), (time_Now clk).2)
    ∧ is_Some (made (VarNodes.ExtractedData n') !! "name")
    ∧ is_Some (var_lookup s' "name").
Proof.
  apply (supported_variables_are_extracted varCollector (atNode "G") clk fullName);
    [by left | reflexivity | by left].
Defined.

(** The required [birthday], of type date, is not. *)
Lemma unsupported_variable_is_never_stored_witness :
  ∃ n' s',
    VarNodes.GatherNode_Execute varCollector (atNode "G") clk
    = (Ok (n', s'), (time_Now clk).2)
    ∧ made (VarNodes.ExtractedData n') !! "birthday" = None
    ∧ var_lookup s' "birthday" = var_lookup (atNode "G") "birthday".
Proof.
  apply (unsupported_variable_is_never_stored varCollector (atNode "G") clk "birthday");
    [|reflexivity].
  intros v Hin Hname Hty.
  apply elem_of_cons in Hin as [->|Hin]; [discriminate|].
  apply elem_of_cons in Hin as [->|Hin]; [|by apply elem_of_nil in Hin].
  repeat (apply elem_of_cons in Hty as [Hty|Hty]; [discriminate|]).
  by apply elem_of_nil in Hty.
Defined.

(** A started execution on a store that refuses writes. *)
Lemma start0_needs_a_writable_store_witness :
  StartWorkflow0 "intake" "user-1" "call-1" (mkWorld (mkFrozen chainStore) clk)
  = (Err (Wrapf "failed to save initial workflow state" (Errorf "read-only store")),
     mkWorld (mkFrozen chainStore) clk)
  ∧ @StartWorkflow SimNodes.node _ found_storage "intake" "user-1" "call-1"
      (mkWorld (mkFrozen chainStore) clk)
    = (Ok (atNode "A"), mkWorld (mkFrozen chainStore) clk).
Proof.
  apply (start0_needs_a_writable_store "intake" "user-1" "call-1"
           (mkWorld (mkFrozen chainStore) clk) chainWf (atNode "A"));
    first [ vm_compute; reflexivity | discriminate ].
Defined.

(** At [G], with no variable in the state, the message is not the
    acknowledgement. *)
Lemma gather_acknowledges_when_state_has_all_witness :
  ∃ message,
    WfNodes.GetCurrentNodeMessage "intake" "user-1" "call-1" (mkWorld varStore clk)
    = (Ok message, mkWorld varStore clk)
    ∧ message ≠ ""
    ∧ (message = "Thank you for providing that information."
       ↔ ∀ v, v ∈ [fullName; birthday] → is_Some (var_lookup (atNode "G") (VarNodes.VarName v))).
Proof.
  apply (gather_acknowledges_when_state_has_all "intake" "user-1" "call-1"
           (mkWorld varStore clk) varWf (atNode "G") varCollector);
    vm_compute; reflexivity.
Defined.


(** A user turn on the workflow [G -> T], over an open channel: the one
    request carries "Workflow complete" and is answered with 200. *)
Lemma success_means_delivered_witness :
  ∃ s w1,
    engineUpdate "intake" "user-1" "call-1" userTurn (mkWorld varStore clk) = (Ok s, w1)
    ∧ (lastFromUser userTurn = false ∧ afterUpdate = w1
       ∧ [("https://control", "add-message: Workflow complete")] = []
       ∨ lastFromUser userTurn = true
         ∧ ∃ message,
             engineMessage "intake" "user-1" "call-1" w1 = (Ok message, afterUpdate)
             ∧ (message = ""
                ∧ [("https://control", "add-message: Workflow complete")] = []
                ∨ message ≠ ""
                  ∧ ∃ body answer,
                      @marshalAddMessage openChannel message = Ok body
                      ∧ @http_POST openChannel "https://control" body
                        = Response StatusOK answer
                      ∧ [("https://control", "add-message: Workflow complete")]
                        = [] ++ [("https://control", body)])).
Proof.
  apply (@success_means_delivered openChannel _ engineUpdate engineMessage
           "intake" "user-1" "call-1" userTurn "https://control"
           (mkWorld varStore clk) afterUpdate []
           [("https://control", "add-message: Workflow complete")]).
  vm_compute. reflexivity.
Defined.

End OnMoreFixtures.
